(** * Sentiment pipeline of [scripts/sentiment_engine.py]

    A shallow embedding of the label normaliser, the language classifier
    ([detect_language]), the platform attribution, the per-platform
    aggregation and the history appender ([update_history]), with the
    properties the specification states about them; then of the run as a
    whole ([run_full_pipeline]) and of the simulator
    ([scripts/mock_streamer.py]), with further properties of the code.

    Conventions of the model:
    - a Python [str] is the list of its code points ([pystr]); ASCII
      literals of the source are written as Rocq strings and converted with
      [of_ascii];
    - the numbers the pipeline computes (ratios, percentages, scores) are
      exact rationals; [round(x, n)] rounds half to even at [n] decimals.
      The representation error of binary64 is outside the model;
    - [str.lower] depends on the case tables of the Python runtime, which
      are not part of the repository: the classifier takes it as a
      parameter [lower]; [lower_basic_latin] is its restriction to Basic
      Latin, exact on texts whose cased letters are all ASCII;
    - files and the console are explicit state. *)

From Stdlib Require Import ZArith NArith QArith Qround Lqa String Ascii List Bool Lia
  Decimal DecimalString.
From stdpp Require Import gmap strings list fin_maps sorting.

Local Open Scope N_scope.

(** ** Python strings as code-point lists *)

Abbreviation pystr := (list N) (only parsing).

Definition of_ascii (s : string) : pystr :=
  List.map N_of_ascii (list_ascii_of_string s).

(** [str.isspace] for one code point: the table of CPython's
    [_PyUnicode_IsWhitespace]. *)
Definition py_isspace (c : N) : bool :=
  ((0x09 <=? c) && (c <=? 0x0D)) || ((0x1C <=? c) && (c <=? 0x20))
  || (c =? 0x85) || (c =? 0xA0) || (c =? 0x1680)
  || ((0x2000 <=? c) && (c <=? 0x200A))
  || (c =? 0x2028) || (c =? 0x2029) || (c =? 0x202F) || (c =? 0x205F)
  || (c =? 0x3000).

Fixpoint lstrip (s : pystr) : pystr :=
  match s with
  | [] => []
  | c :: s' => if py_isspace c then lstrip s' else s
  end.

Definition rstrip (s : pystr) : pystr := rev (lstrip (rev s)).

(** [s.strip()] *)
Definition strip (s : pystr) : pystr := rstrip (lstrip s).

(** [s.split()]: maximal runs of non-whitespace code points. [cur] holds the
    token being read, reversed. *)
Fixpoint split_aux (cur : pystr) (s : pystr) : list pystr :=
  match s with
  | [] => match cur with [] => [] | _ => [rev cur] end
  | c :: s' =>
      if py_isspace c
      then match cur with
           | [] => split_aux [] s'
           | _ => rev cur :: split_aux [] s'
           end
      else split_aux (c :: cur) s'
  end.

Definition split (s : pystr) : list pystr := split_aux [] s.

(** [s.startswith(p)] *)
Fixpoint startswith (s p : pystr) {struct p} : bool :=
  match p, s with
  | [], _ => true
  | _ :: _, [] => false
  | a :: p', b :: s' => (a =? b) && startswith s' p'
  end.

(** [s.endswith(p)] *)
Definition endswith (s p : pystr) : bool := startswith (rev s) (rev p).

(** [p in s] *)
Fixpoint contains (s p : pystr) : bool :=
  startswith s p ||
  match s with
  | [] => false
  | _ :: s' => contains s' p
  end.

(** [str.lower] restricted to Basic Latin. *)
Definition lower_cp (c : N) : N :=
  if (0x41 <=? c) && (c <=? 0x5A) then c + 32 else c.

Definition lower_basic_latin (s : pystr) : pystr := List.map lower_cp s.

(** ** The regular expressions of [detect_language] *)

Definition is_ascii_digit (c : N) : bool := (0x30 <=? c) && (c <=? 0x39).

Fixpoint digit_run (s : pystr) : nat :=
  match s with
  | c :: s' => if is_ascii_digit c then S (digit_run s') else O
  | [] => O
  end.

(** A match of [[0-9]+\.] at the head of [s], as the number of code points
    it spans. The greedy [+] takes the whole run of digits; giving digits
    back cannot help, since the code point after a shorter run is a digit. *)
Definition match_list_marker (s : pystr) : option nat :=
  let n := digit_run s in
  match n, nth_error s n with
  | S _, Some c => if c =? 0x2E then Some (S n) else None
  | _, _ => None
  end.

(** The other alternatives of [emoji_pattern]. The pattern is not enclosed
    in brackets, so [\U0001F600-\U0001F64F] is the three-character literal
    made of the two code points and the hyphen between them. *)
Definition emoji_literals : list pystr :=
  [ [0x1F600; 0x2D; 0x1F64F];
    [0x1F300; 0x2D; 0x1F5FF];
    [0x1F680; 0x2D; 0x1F6FF];
    [0x1F1E0; 0x2D; 0x1F1FF];
    [0x2702; 0x2D; 0x27B0];
    [0x24C2; 0x2D; 0x1F251];
    [0x1F900; 0x2D; 0x1F9FF];
    [0x1FA00; 0x2D; 0x1FA6F] ].

Fixpoint match_literals (lits : list pystr) (s : pystr) : option nat :=
  match lits with
  | [] => None
  | lit :: lits' =>
      if startswith s lit then Some (List.length lit) else match_literals lits' s
  end.

(** [emoji_pattern] matched at the head of [s]; alternatives in order. *)
Definition emoji_pattern (s : pystr) : option nat :=
  match match_list_marker s with
  | Some n => Some n
  | None => match_literals emoji_literals s
  end.

(** [re.sub(pattern, '', s)]: leftmost matches, left to right, without
    overlap. [skip] counts the code points of the current match still to be
    dropped. *)
Fixpoint re_sub_aux (pattern : pystr -> option nat) (skip : nat) (s : pystr)
  : pystr :=
  match s with
  | [] => []
  | c :: s' =>
      match skip with
      | S k => re_sub_aux pattern k s'
      | O =>
          match pattern s with
          | Some (S k) => re_sub_aux pattern k s'
          | _ => c :: re_sub_aux pattern O s'
          end
      end
  end.

Definition re_sub (pattern : pystr -> option nat) (s : pystr) : pystr :=
  re_sub_aux pattern O s.

(** [re.search(r'[\u0900-\u097F]', s)] as a truth value. *)
Definition is_devanagari (c : N) : bool := (0x0900 <=? c) && (c <=? 0x097F).
Definition search_devanagari (s : pystr) : bool := existsb is_devanagari s.

(** ** Values, exceptions and console output *)

(** What [detect_language] can be applied to: a cell of the column
    [comment_text] is a [str], or a scalar that is not one (the float NaN of
    an empty cell, a number), given with the text [str()] renders for it. *)
Inductive pyval : Type :=
| PStr (s : pystr)
| PNonStr (rendering : pystr).

Record exn : Type := Exn { exn_kind : string; exn_msg : pystr }.

Inductive outcome (A : Type) : Type :=
| Return (a : A)
| Raise (e : exn).
Arguments Return {A} a.
Arguments Raise {A} e.

(** One line of the history log, [sentiment_history.csv]. *)
Record HistoryRecord : Type := mkHistoryRecord {
  hr_timestamp : string;
  hr_platform : string;
  hr_health_score : Q
}.

(** A line of the file: the header [timestamp,platform,health_score], or a
    record. *)
Inductive csv_line : Type :=
| HeaderLine
| RecordLine (r : HistoryRecord).

(** What the code reads and writes: the console, and the file of the history
    log, [None] when it does not exist. *)
Record world : Type := mkWorld {
  console : list pystr;
  history_file : option (list csv_line)
}.

(** A computation that may raise, print and touch the history log. *)
Definition io (A : Type) : Type := world -> outcome A * world.

Definition ret {A} (a : A) : io A := fun w => (Return a, w).
Definition raise {A} (e : exn) : io A := fun w => (Raise e, w).
Definition bind {A B} (m : io A) (k : A -> io B) : io B :=
  fun w =>
    match m w with
    | (Return a, w') => k a w'
    | (Raise e, w') => (Raise e, w')
    end.
Definition print (line : pystr) : io unit :=
  fun w => (Return tt, mkWorld (console w ++ [line]) (history_file w)).
Definition try_except {A} (body : io A) (handler : exn -> io A) : io A :=
  fun w =>
    match body w with
    | (Return a, w') => (Return a, w')
    | (Raise e, w') => handler e w'
    end.

Notation "'let*' x := m 'in' k" := (bind m (fun x => k))
  (at level 10, x name, m at level 100, k at level 200).
Notation "m >> k" := (bind m (fun _ => k))
  (at level 100, k at level 200, right associativity).

(** [str(v)] *)
Definition py_str (v : pyval) : io pystr :=
  match v with
  | PStr s => ret s
  | PNonStr rendering => ret rendering
  end.

(** [v[:n]]: defined on strings; a float or an integer is not
    subscriptable. *)
Definition py_slice_to (n : nat) (v : pyval) : io pystr :=
  match v with
  | PStr s => ret (take n s)
  | PNonStr _ => raise (Exn "TypeError" (of_ascii "object is not subscriptable"))
  end.

(** ** The language classifier *)

Inductive lang : Type := en | hi | hinglish.

Definition hinglish_words : list pystr :=
  List.map of_ascii
    [ "hai"; "hain"; "tha"; "thi"; "kar"; "kya"; "yeh"; "woh"; "mast";
      "ekdum"; "bohot"; "bahut"; "achha"; "accha"; "theek"; "thik";
      "karo"; "karna"; "kitna"; "kitne"; "aur"; "ka"; "ki"; "ke";
      "nahi"; "nahin"; "bilkul"; "sahi"; "galat"; "kuch"; "kab";
      "kahan"; "kaun"; "kyun"; "kaise"; "abhi"; "ab"; "phir";
      "dekho"; "dekh"; "sunna"; "suno"; "bola"; "boli"; "gaya";
      "gayi"; "lena"; "liya"; "dena"; "diya"; "kapde"; "comfy" ]%string.

Definition SPACE : N := 0x20.

(** The condition of the generator expression that counts lexicon words:
    [f' {word} ' in f' {text_lower} ' or text_lower.startswith(word + ' ')
     or text_lower.endswith(' ' + word)]. *)
Definition word_hit (text_lower word : pystr) : bool :=
  contains (SPACE :: text_lower ++ [SPACE]) (SPACE :: word ++ [SPACE])
  || startswith text_lower (word ++ [SPACE])
  || endswith text_lower (SPACE :: word).

Definition hinglish_count (text_lower : pystr) : nat :=
  List.length (List.filter (word_hit text_lower) hinglish_words).

Section Classifier.

(** [str.lower] of the runtime. *)
Variable lower : pystr -> pystr.

Definition text_str_of (raw : pystr) : pystr := strip raw.

Definition clean_text_of (raw : pystr) : pystr :=
  strip (re_sub emoji_pattern (text_str_of raw)).

(** The statements of the [try] block, after [str(text)]. *)
Definition classify (raw : pystr) : lang :=
  let text_str := text_str_of raw in
  let clean_text := clean_text_of raw in
  if (List.length clean_text <? 3)%nat then en
  else
    let has_hindi_script := search_devanagari text_str in
    let text_lower := lower clean_text in
    let hinglish_count := hinglish_count text_lower in
    let english_words := split text_lower in
    let has_english := (0 <? List.length english_words)%nat in
    if has_hindi_script && has_english then hinglish
    else if has_hindi_script then hi
    else if (2 <=? hinglish_count)%nat then hinglish
    else if (hinglish_count =? 1)%nat && (List.length english_words <=? 5)%nat
         then hinglish
         else en.

Definition warning_line (shown : pystr) (e : exn) : pystr :=
  of_ascii "Warning: Language detection error for text: " ++ shown
  ++ of_ascii "... - Error: " ++ exn_msg e.

(** The [except Exception as e] clause. *)
Definition detect_language_handler (text : pyval) (e : exn) : io lang :=
  let* shown := py_slice_to 50 text in
  print (warning_line shown e) >>
  ret en.

Definition detect_language (text : pyval) : io lang :=
  try_except
    (let* text_str := py_str text in ret (classify text_str))
    (detect_language_handler text).

(** [df['comment_text'].apply(detect_language)] *)
Fixpoint apply_detect_language (column : list pyval) : io (list lang) :=
  match column with
  | [] => ret []
  | v :: column' =>
      let* l := detect_language v in
      let* ls := apply_detect_language column' in
      ret (l :: ls)
  end.

End Classifier.

(** The texts of the specification's scenarios. *)
Definition text_pure_hindi : pystr :=
  [0x92F; 0x939; 0x20; 0x92C; 0x939; 0x941; 0x924; 0x20;
   0x905; 0x91A; 0x94D; 0x91B; 0x93E; 0x20; 0x939; 0x948].

Definition text_mast : pystr := of_ascii "mast product, bilkul sahi".

(** ** What the specification calls a lexicon hit *)

(** An occurrence of [w] in [t] as a whole word: bounded on each side by a
    space or by the edge of the text. *)
Definition whole_word_occurrence (w t : pystr) : Prop :=
  exists pre post,
    t = pre ++ w ++ post
    /\ (pre = [] \/ last pre = Some SPACE)
    /\ (post = [] \/ head post = Some SPACE).

(** [count_words P ws n]: exactly [n] entries of [ws] satisfy [P], every
    entry counted once. *)
Inductive count_words (P : pystr -> Prop) : list pystr -> nat -> Prop :=
| count_nil : count_words P [] O
| count_hit w ws n : P w -> count_words P ws n -> count_words P (w :: ws) (S n)
| count_miss w ws n : ~ P w -> count_words P ws n -> count_words P (w :: ws) n.

(** Following the specification's words: the occurrences of lexicon words
    among the whitespace-separated tokens of the text, repetitions
    included. *)
Definition is_lexicon_word (tok : pystr) : bool :=
  existsb (fun w => bool_decide (w = tok)) hinglish_words.

Definition spec_lexicon_occurrences (text_lower : pystr) : nat :=
  List.length (List.filter is_lexicon_word (split text_lower)).

(** ** Numbers *)

(** The integer nearest to [x], ties to the even one. *)
Definition round_half_even (x : Q) : Z :=
  let f := Qfloor x in
  match (x - inject_Z f ?= 1 # 2)%Q with
  | Lt => f
  | Gt => (f + 1)%Z
  | Eq => if Z.even f then f else (f + 1)%Z
  end.

Definition pow10 (ndigits : nat) : Q := inject_Z (10 ^ Z.of_nat ndigits).

(** [round(x, ndigits)] *)
Definition py_round (x : Q) (ndigits : nat) : Q :=
  (inject_Z (round_half_even (x * pow10 ndigits)) / pow10 ndigits)%Q.

(** ** Label normaliser *)

(** One output of the sentiment model, [{'label': ..., 'score': ...}]. *)
Record raw_result : Type := mkRaw { label : string; score : Q }.

Definition label_map : gmap string string :=
  list_to_map
    [ ("LABEL_0", "negative"); ("LABEL_1", "neutral"); ("LABEL_2", "positive");
      ("negative", "negative"); ("neutral", "neutral");
      ("positive", "positive") ]%string.

(** [d.get(key, fallback)] *)
Definition dict_get {V} (d : gmap string V) (key : string) (fallback : V) : V :=
  default fallback (d !! key).

(** [df['label']] and [df['score']] as computed from [results]. *)
Definition normalized_labels (results : list raw_result) : list string :=
  List.map (fun r => dict_get label_map (label r) (label r)) results.

Definition rounded_scores (results : list raw_result) : list Q :=
  List.map (fun r => py_round (score r) 4) results.

(** ** Platform attribution *)

Definition upper_ascii (c : ascii) : ascii :=
  let n := nat_of_ascii c in
  if ((97 <=? n) && (n <=? 122))%nat then ascii_of_nat (n - 32) else c.

Definition lower_ascii (c : ascii) : ascii :=
  let n := nat_of_ascii c in
  if ((65 <=? n) && (n <=? 90))%nat then ascii_of_nat (n + 32) else c.

Fixpoint string_map (f : ascii -> ascii) (s : string) : string :=
  match s with
  | EmptyString => EmptyString
  | String c s' => String (f c) (string_map f s')
  end.

(** [s.capitalize()] on an ASCII string. *)
Definition capitalize (s : string) : string :=
  match s with
  | EmptyString => EmptyString
  | String c s' => String (upper_ascii c) (string_map lower_ascii s')
  end.

Definition platforms : list string :=
  [ "instagram"; "twitter"; "facebook"; "linkedin" ]%string.

(** The inner loop: [for pid in temp_df['post_id']:
    post_to_platform[pid] = p.capitalize()]. *)
Definition register_posts (p : string) (post_ids : list string)
    (post_to_platform : gmap string string) : gmap string string :=
  foldl (fun m pid => <[pid := capitalize p]> m) post_to_platform post_ids.

(** The outer loop. [listing p] is the column [post_id] of
    [<p>_organic_posts.csv], or [None] when that file does not exist. *)
Definition build_post_to_platform (listing : string -> option (list string))
  : gmap string string :=
  foldl (fun m p =>
           match listing p with
           | Some post_ids => register_posts p post_ids m
           | None => m
           end) ∅ platforms.

(** [df['post_id'].map(post_to_platform).fillna('General')] for one row. *)
Definition attribute_platform (post_to_platform : gmap string string)
    (post_id : string) : string :=
  match post_to_platform !! post_id with
  | Some p => p
  | None => "General"%string
  end.

(** ** Aggregation *)

(** The columns of [df] the summary reads. *)
Record classified : Type := mkClassified {
  c_platform : string;
  c_label : string
}.

Record Distribution : Type := mkDistribution {
  positive : Q;
  neutral : Q;
  negative : Q
}.

Record PlatformSummary : Type := mkSummary {
  platform : string;
  health_score : Q;
  distribution : Distribution;
  total_comments : nat
}.

(** [series.value_counts()]: the number of occurrences of each value. *)
Definition value_counts (values : list string) : gmap string nat :=
  foldr (fun v counts => <[v := S (default O (counts !! v))]> counts) ∅ values.

(** [series.value_counts(normalize=True) * 100] *)
Definition value_counts_pct (values : list string) : gmap string Q :=
  let total := inject_Z (Z.of_nat (List.length values)) in
  (fun share => share * 100)%Q
    <$> ((fun c => inject_Z (Z.of_nat c) / total)%Q <$> value_counts values).

(** The order of group keys. *)
Definition key_le (a b : string) : Prop := Is_true (String.leb a b).

Local Instance key_le_dec a b : Decision (key_le a b).
Proof. unfold key_le. apply _. Defined.

(** [df.groupby('platform')]: one group per distinct key, keys in
    increasing order, each group holding the rows of that key in the order
    of [df]. *)
Definition groupby (df : list classified) : list (string * list classified) :=
  List.map (fun k => (k, filter (fun r => c_platform r = k) df))
    (merge_sort key_le (remove_dups (List.map c_platform df))).

(** The body of the loop over the groups. *)
Definition summarize (platform : string) (group : list classified)
  : PlatformSummary :=
  let counts := value_counts_pct (List.map c_label group) in
  let pos := dict_get counts "positive" 0%Q in
  let neg := dict_get counts "negative" 0%Q in
  let neu := dict_get counts "neutral" 0%Q in
  let health_score := (pos + neu * (1 # 2))%Q in
  {| platform := platform;
     health_score := py_round health_score 2;
     distribution := {| positive := py_round pos 1;
                        neutral := py_round neu 1;
                        negative := py_round neg 1 |};
     total_comments := List.length group |}.

Definition summary_data_of (df : list classified) : list PlatformSummary :=
  List.map (fun kg => summarize (fst kg) (snd kg)) (groupby df).

(** ** History appender *)

(** [os.path.isfile(OUTPUT_FILE_HISTORY)] *)
Definition isfile_history : io bool :=
  fun w =>
    match history_file w with
    | Some _ => (Return true, w)
    | None => (Return false, w)
    end.

(** The cell of the first column of a line that is read as data: a header
    line that is not the first line of the file is a row of three strings. *)
Definition line_timestamp (l : csv_line) : string :=
  match l with
  | HeaderLine => "timestamp"%string
  | RecordLine r => hr_timestamp r
  end.

(** [pd.read_csv(OUTPUT_FILE_HISTORY)['timestamp'].values]. The first line
    of the file gives the column names. A file that starts with a record is
    not one this code writes; it is taken to have no column [timestamp]. *)
Definition read_timestamp_column : io (list string) :=
  fun w =>
    match history_file w with
    | None =>
        (Raise (Exn "FileNotFoundError" (of_ascii "sentiment_history.csv")), w)
    | Some [] =>
        (Raise (Exn "EmptyDataError" (of_ascii "No columns to parse from file")), w)
    | Some (HeaderLine :: lines) => (Return (List.map line_timestamp lines), w)
    | Some (RecordLine _ :: _) => (Raise (Exn "KeyError" (of_ascii "timestamp")), w)
    end.

(** [history_df.to_csv(OUTPUT_FILE_HISTORY, mode='a', index=False,
    header=...)]: appends the header line when asked for, then the records;
    appending to a missing file creates it. *)
Definition to_csv_append (rows : list HistoryRecord) (header : bool) : io unit :=
  fun w =>
    let old := default [] (history_file w) in
    let new := (if header then [HeaderLine] else []) ++ List.map RecordLine rows in
    (Return tt, mkWorld (console w) (Some (old ++ new))).

Definition WARNING_SIGN : pystr := [0x26A0; 0xFE0F].
Definition CHECK_MARK : pystr := [0x2705].

Definition skip_warning (timestamp : string) : pystr :=
  WARNING_SIGN ++ of_ascii " Skipping history update - timestamp "
  ++ of_ascii timestamp ++ of_ascii " already exists".

Definition updating_line : pystr := of_ascii "Updating sentiment history log...".

Definition updated_line : pystr :=
  CHECK_MARK ++ of_ascii " History updated in: "
  ++ of_ascii "../server/data/sentiment_history.csv".

(** The list [history_rows] built by the loop over [summary_data]. *)
Definition history_rows_of (timestamp : string)
    (summary_data : list PlatformSummary) : list HistoryRecord :=
  List.map (fun item =>
              mkHistoryRecord timestamp (platform item) (health_score item))
    summary_data.

(** [update_history]. [timestamp] is the value of
    [datetime.now().strftime("%Y-%m-%d %H:%M")] at the call. *)
Definition update_history (timestamp : string)
    (summary_data : list PlatformSummary) : io unit :=
  print updating_line >>
  let* file_exists := isfile_history in
  let* duplicate :=
    (if file_exists : bool
     then let* existing_timestamps := read_timestamp_column in
          ret (existsb (String.eqb timestamp) existing_timestamps)
     else ret false) in
  if duplicate : bool
  then print (skip_warning timestamp)
  else
    let history_rows := history_rows_of timestamp summary_data in
    match history_rows with
    | [] => ret tt
    | _ :: _ =>
        to_csv_append history_rows (negb file_exists) >>
        print updated_line
    end.

(** ** The quantities the specification names *)

(** The number of comments of a class in a group. *)
Definition class_count (cls : string) (labels : list string) : nat :=
  List.length (List.filter (String.eqb cls) labels).

(** Following the specification's words: the class's count / N x 100. *)
Definition percentage (cls : string) (labels : list string) : Q :=
  (inject_Z (Z.of_nat (class_count cls labels))
   / inject_Z (Z.of_nat (List.length labels)) * 100)%Q.

Definition canonical (l : string) : Prop :=
  l = "positive"%string \/ l = "neutral"%string \/ l = "negative"%string.

(** A history log: no file yet, or a file that starts with the header
    line. *)
Definition is_history_log (file : option (list csv_line)) : Prop :=
  match file with
  | None => True
  | Some (HeaderLine :: _) => True
  | Some _ => False
  end.

(** The timestamp column of the log; empty when there is no file. *)
Definition timestamp_column (file : option (list csv_line)) : list string :=
  match file with
  | Some (_ :: lines) => List.map line_timestamp lines
  | _ => []
  end.

(** The log after [rows] have been appended to it, the file being created
    with its header when it was missing. *)
Definition log_with (file : option (list csv_line)) (rows : list HistoryRecord)
  : option (list csv_line) :=
  Some (default [HeaderLine] file ++ List.map RecordLine rows).

(** Two runs of [update_history] in a row. *)
Definition update_history_twice (timestamp : string)
    (summary_data : list PlatformSummary) : io unit :=
  update_history timestamp summary_data >>
  update_history timestamp summary_data.

(** Whether [post_id] is in the listing of platform [p]. *)
Definition listed_in (listing : string -> option (list string))
    (post_id p : string) : bool :=
  match listing p with
  | Some post_ids => bool_decide (post_id ∈ post_ids)
  | None => false
  end.

(** The group of a platform: its rows, in the order of [df]. *)
Definition group_of (p : string) (df : list classified) : list classified :=
  filter (fun r => c_platform r = p) df.

(** The raw vocabulary the label table knows. *)
Definition known_vocabulary : list string :=
  [ "LABEL_0"; "LABEL_1"; "LABEL_2"; "negative"; "neutral"; "positive" ]%string.

(** ** The log as a table *)

Definition record_of (l : csv_line) : option HistoryRecord :=
  match l with
  | HeaderLine => None
  | RecordLine r => Some r
  end.

(** The records of the log, in the order of the file; none without a file. *)
Definition log_records (file : option (list csv_line)) : list HistoryRecord :=
  match file with
  | Some lines => omap record_of lines
  | None => []
  end.

(** A log as [update_history] writes it: no file, or the header line once,
    at the top, and records below it. *)
Definition proper_log (file : option (list csv_line)) : Prop :=
  match file with
  | None => True
  | Some lines => exists records, lines = HeaderLine :: List.map RecordLine records
  end.

(** What identifies a record of the log: its minute and its platform. *)
Definition record_key (r : HistoryRecord) : string * string :=
  (hr_timestamp r, hr_platform r).

(** The names the column [platform] of [df] can hold. *)
Definition platform_names : list string :=
  [ "Instagram"; "Twitter"; "Facebook"; "Linkedin"; "General" ]%string.

(** ** Sample inputs *)

Definition empty_world : world := mkWorld [] None.

(** A log that already holds a record of 2024-01-01 10:00. *)
Definition logged_world : world :=
  mkWorld []
    (Some [ HeaderLine;
            RecordLine (mkHistoryRecord "2024-01-01 10:00" "Instagram" 75) ]).

(** Ten comments on one platform: 6 positive, 3 neutral, 1 negative. *)
Definition scenario_df : list classified :=
  List.map (mkClassified "Instagram")
    [ "positive"; "positive"; "positive"; "positive"; "positive"; "positive";
      "neutral"; "neutral"; "neutral"; "negative" ]%string.

(** A group whose only comment carries a label the table does not know. *)
Definition unknown_label_df : list classified :=
  [ mkClassified "General" "mixed" ].

(** A lexicon word three times among six tokens; a two-letter lexicon word;
    two lexicon words separated by a tab. *)
Definition text_repeated_word : pystr := of_ascii "delivery was late kya kya kya".
Definition text_two_letters : pystr := of_ascii "ki".
Definition text_tab_separated : pystr := of_ascii "hai" ++ [0x09%N] ++ of_ascii "kya".

(** Post P1 is listed by Instagram and by Facebook, post P2 by Twitter;
    LinkedIn has no listing file. *)
Definition sample_listing (p : string) : option (list string) :=
  if String.eqb p "instagram" then Some [ "P1" ]%string
  else if String.eqb p "twitter" then Some [ "P2" ]%string
  else if String.eqb p "facebook" then Some [ "P0"; "P1" ]%string
  else None.

(** * The whole run, and the simulator *)

(** ** Computations over any state *)

(** A computation over a state [S] that may raise. [io] is [st world]. *)
Definition st (S A : Type) : Type := S -> outcome A * S.

#[export] Instance st_ret {S} : MRet (st S) := fun A a s => (Return a, s).

#[export] Instance st_bind {S} : MBind (st S) :=
  fun A B k m s =>
    match m s with
    | (Return a, s') => k a s'
    | (Raise e, s') => (Raise e, s')
    end.

Definition st_raise {S A} (e : exn) : st S A := fun s => (Raise e, s).
Definition st_get {S} : st S S := fun s => (Return s, s).
Definition st_put {S} (s' : S) : st S unit := fun _ => (Return tt, s').

(** The value of an outcome known beforehand, as a computation. *)
Definition st_of_outcome {S A} (o : outcome A) : st S A := fun s => (o, s).

(** [for x in xs: body(x)] *)
Fixpoint st_for {S A} (xs : list A) (body : A -> st S unit) : st S unit :=
  match xs with
  | [] => mret tt
  | x :: xs' => body x ;; st_for xs' body
  end.

(** [n] in decimal, as [f"{n}"] prints it. *)
Fixpoint uint_digits (d : Decimal.uint) : pystr :=
  match d with
  | Decimal.Nil => []
  | Decimal.D0 d => 0x30%N :: uint_digits d
  | Decimal.D1 d => 0x31%N :: uint_digits d
  | Decimal.D2 d => 0x32%N :: uint_digits d
  | Decimal.D3 d => 0x33%N :: uint_digits d
  | Decimal.D4 d => 0x34%N :: uint_digits d
  | Decimal.D5 d => 0x35%N :: uint_digits d
  | Decimal.D6 d => 0x36%N :: uint_digits d
  | Decimal.D7 d => 0x37%N :: uint_digits d
  | Decimal.D8 d => 0x38%N :: uint_digits d
  | Decimal.D9 d => 0x39%N :: uint_digits d
  end.

Definition decimal (n : nat) : pystr := uint_digits (Nat.to_uint n).

(** ** [run_full_pipeline] *)

(** A row of [synthetic_comments_data.csv]. *)
Record comment_row : Type := mkComment {
  comment_id : pystr;
  post_id : string;
  user_handle : pystr;
  comment_text : pyval;
  timestamp : string
}.

(** A row of [enriched_comments_sentiment.csv]: the comment and the four
    columns the run adds. *)
Record detailed_row : Type := mkDetailed {
  d_comment : comment_row;
  d_label : string;
  d_score : Q;
  d_platform : string;
  d_language : lang
}.

(** The files of [../server/data] the run reads and writes, and the
    console. [organic_posts p] is the column [post_id] of
    [<p>_organic_posts.csv]. *)
Record files : Type := mkFiles {
  comments_file : option (list comment_row);
  organic_posts : string -> option (list string);
  detailed_file : option (list detailed_row);
  summary_file : option (list PlatformSummary);
  base : world
}.

(** A computation on the console and the history log, run among the
    files. *)
Definition lift {A} (m : io A) : st files A :=
  fun fs =>
    match m (base fs) with
    | (o, w') =>
        (o, mkFiles (comments_file fs) (organic_posts fs) (detailed_file fs)
              (summary_file fs) w')
    end.

Definition say (line : string) : st files unit := lift (print (of_ascii line)).
Definition say_line (line : pystr) : st files unit := lift (print line).

(** [str(v)], as [astype(str)] applies it to a cell. *)
Definition rendering_of (v : pyval) : pystr :=
  match v with
  | PStr s => s
  | PNonStr rendering => rendering
  end.

(** [df[column] = values]: the list must be as long as the table. *)
Definition check_column {A B} (df : list A) (values : list B) : st files unit :=
  if (List.length values =? List.length df)%nat then mret tt
  else st_raise (Exn "ValueError"
                   (of_ascii "Length of values does not match length of index")).

Definition write_detailed (rows : list detailed_row) : st files unit :=
  fun fs =>
    (Return tt,
     mkFiles (comments_file fs) (organic_posts fs) (Some rows) (summary_file fs)
       (base fs)).

Definition write_summary (summary_data : list PlatformSummary) : st files unit :=
  fun fs =>
    (Return tt,
     mkFiles (comments_file fs) (organic_posts fs) (detailed_file fs)
       (Some summary_data) (base fs)).

(** The table with its four new columns. *)
Fixpoint zip_detailed (df : list comment_row) (labels : list string)
    (scores : list Q) (languages : list lang)
    (post_to_platform : gmap string string) : list detailed_row :=
  match df, labels, scores, languages with
  | c :: df', l :: labels', s :: scores', g :: languages' =>
      mkDetailed c l s (attribute_platform post_to_platform (post_id c)) g
      :: zip_detailed df' labels' scores' languages' post_to_platform
  | _, _, _, _ => []
  end.

Definition classified_of (r : detailed_row) : classified :=
  mkClassified (d_platform r) (d_label r).

Section Pipeline.

(** The sentiment model: [pipeline("sentiment-analysis", ...)] loads it,
    which may fail; applied to the texts it returns the results, or
    fails. *)
Variable load_model : outcome (list pystr -> outcome (list raw_result)).

Variable lower : pystr -> pystr.

(** [run_full_pipeline]. [now] is the minute of the clock when
    [update_history] reads it. *)
Definition run_full_pipeline (now : string) : st files unit :=
  say "--- Starting AI Sentiment Pipeline ---" ;;
  fs ← st_get;
  match comments_file fs with
  | None => say "Error: ../server/data/synthetic_comments_data.csv not found."
  | Some [] => say "Warning: synthetic_comments_data.csv is empty."
  | Some df =>
      say "Loading Model: cardiffnlp/twitter-xlm-roberta-base-sentiment..." ;;
      sentiment_pipe ← st_of_outcome load_model;
      say_line (of_ascii "Analyzing " ++ decimal (List.length df)
                ++ of_ascii " comments. Processing...") ;;
      results ← st_of_outcome
                  (sentiment_pipe (List.map (fun c => rendering_of (comment_text c)) df));
      check_column df (normalized_labels results) ;;
      check_column df (rounded_scores results) ;;
      say "Mapping posts to platforms..." ;;
      let post_to_platform := build_post_to_platform (organic_posts fs) in
      say "Detecting languages..." ;;
      languages ← lift (apply_detect_language lower (List.map comment_text df));
      let rows := zip_detailed df (normalized_labels results)
                    (rounded_scores results) languages post_to_platform in
      write_detailed rows ;;
      say_line (CHECK_MARK ++ of_ascii " Detailed sentiment saved to: "
                ++ of_ascii "../server/data/enriched_comments_sentiment.csv") ;;
      say "Generating Platform Summary..." ;;
      let summary_data := summary_data_of (List.map classified_of rows) in
      write_summary summary_data ;;
      lift (update_history now summary_data) ;;
      say_line (CHECK_MARK ++ of_ascii " Summary JSON saved to: "
                ++ of_ascii "../server/data/platform_sentiment_summary.json") ;;
      say "--- Pipeline Complete ---"
  end.

End Pipeline.

(** ** The simulator, [scripts/mock_streamer.py] *)

(** A row of an [*_organic_posts.csv] and of an [*_ad_campaigns.csv], with
    the columns the simulator touches. *)
Record organic_row : Type := mkOrganic {
  o_post_id : string;
  impressions : Z;
  reach : Z;
  likes : Z;
  shares : Z
}.

Record ads_row : Type := mkAds {
  campaign : string;
  clicks : Z;
  total_spend : Q
}.

(** A CSV file of [DATA_DIR], by the columns it has. *)
Inductive table : Type :=
| Comments (rows : list comment_row)
| Organic (rows : list organic_row)
| Ads (rows : list ads_row).

(** The state of a simulation: the files of [DATA_DIR] by name, the
    console, and the source of [random], a sequence of numbers of which
    [draws] have been used. *)
Record sim : Type := mkSim {
  tables : gmap string table;
  sim_console : list pystr;
  entropy : nat -> Z;
  draws : nat
}.

Definition sim_print (line : pystr) : st sim unit :=
  fun s => (Return tt,
            mkSim (tables s) (sim_console s ++ [line]) (entropy s) (draws s)).

(** [random.randint(lo, hi)]: an integer of [lo..hi], both included; an
    empty range is an error. *)
Definition randint (lo hi : Z) : st sim Z :=
  fun s =>
    if (hi <? lo)%Z
    then (Raise (Exn "ValueError" (of_ascii "empty range for randrange()")), s)
    else (Return (lo + entropy s (draws s) mod (hi - lo + 1))%Z,
          mkSim (tables s) (sim_console s) (entropy s) (S (draws s))).

(** [random.uniform(a, b)]: [a + (b - a) * random()], with [random()] in
    [0, 1). *)
Definition uniform (a b : Q) : st sim Q :=
  fun s =>
    let u := ((entropy s (draws s) mod 2 ^ 53)%Z # 2 ^ 53)%Q in
    (Return (a + (b - a) * u)%Q,
     mkSim (tables s) (sim_console s) (entropy s) (S (draws s))).

(** [s.split(sep)] for a separator of one code point. *)
Fixpoint split_on_aux (sep : N) (cur s : pystr) : list pystr :=
  match s with
  | [] => [rev cur]
  | c :: s' =>
      if (c =? sep)%N then rev cur :: split_on_aux sep [] s'
      else split_on_aux sep (c :: cur) s'
  end.

Definition split_on (sep : N) (s : pystr) : list pystr := split_on_aux sep [] s.

(** [sep.join(parts)] *)
Fixpoint join (sep : N) (parts : list pystr) : pystr :=
  match parts with
  | [] => []
  | [p] => p
  | p :: parts' => p ++ sep :: join sep parts'
  end.

Definition NEWLINE : N := 0x0A%N.

(** [n] in decimal, as a string of the model. *)
Definition dec_string (n : Z) : string :=
  NilEmpty.string_of_uint (Nat.to_uint (Z.to_nat n)).

Definition prompts : gmap string string :=
  list_to_map
    [ ("normal",
       "Generate a mix of short positive and neutral social media comments for a sustainable clothing brand. Use some Hinglish.");
      ("crisis",
       "Generate angry customer complaints about a website crash, broken items, or shipping delays for a brand.");
      ("viral",
       "Generate highly excited, fan-girl style comments about a new sustainable collection launch. Use 'Love this!', 'Finally!', and lots of emojis.") ]%string.

(** The content of the message sent to the model. *)
Definition request_content (scenario : string) (count : Z) : string :=
  (dict_get prompts scenario "normal" ++ " Return " ++ dec_string count
   ++ " comments as a simple list, one per line. Max 15 words per comment. Use emojis.")%string.

Definition fallback_comments : list pystr :=
  [ of_ascii "Great quality!"; of_ascii "When is the next sale?";
    of_ascii "Delivery was slow." ].

Section Simulator.

(** The chat model: from the content of the message to the content of the
    first choice of the reply, or a failure (of the network, of the key, a
    reply without content). *)
Variable chat : string -> outcome pystr.

(** [generate_ai_comments] *)
Definition generate_ai_comments (scenario : string) (count : Z)
  : st sim (list pystr) :=
  match chat (request_content scenario count) with
  | Return content => mret (split_on NEWLINE (strip content))
  | Raise e =>
      sim_print (WARNING_SIGN ++ of_ascii " OpenAI Error: " ++ exn_msg e) ;;
      mret fallback_comments
  end.

(** [update_csv] *)
Definition update_csv (file_name : string) (logic_func : table -> st sim table)
  : st sim bool :=
  s ← st_get;
  match tables s !! file_name with
  | Some df =>
      df' ← logic_func df;
      s' ← st_get;
      st_put (mkSim (<[file_name := df']> (tables s')) (sim_console s')
                (entropy s') (draws s')) ;;
      mret true
  | None => mret false
  end.

Definition key_error {A} (column : string) : st sim A :=
  st_raise (Exn "KeyError" (of_ascii column)).

(** The clock: [now k] is what [strftime("%Y-%m-%d %H:%M:%S")] prints at
    the reading number [k] of a cycle, one reading being made per new
    row. *)
Variable now : nat -> string.

(** The rows [comment_logic] builds, one per text; [k] readings of the
    clock have been made. *)
Fixpoint new_rows_of (k : nat) (texts : list pystr) : st sim (list comment_row) :=
  match texts with
  | [] => mret []
  | text :: texts' =>
      c ← randint 5000 9999;
      p ← randint 1 4;
      u ← randint 100 999;
      let row :=
        mkComment (of_ascii ("C_" ++ dec_string c)) ("POST_000" ++ dec_string p)
          (of_ascii ("user_" ++ dec_string u)) (PStr (strip text)) (now k) in
      rows ← new_rows_of (S k) texts';
      mret (row :: rows)
  end.

Definition comment_logic (new_comment_texts : list pystr) (df : table)
  : st sim table :=
  match df with
  | Comments rows =>
      new_rows ← new_rows_of O new_comment_texts;
      mret (Comments (rows ++ new_rows))
  | _ => key_error "comment_id"
  end.

Definition bump_organic (i r l h : Z) (row : organic_row) : organic_row :=
  mkOrganic (o_post_id row) (impressions row + i) (reach row + r)
    (likes row + l) (shares row + h).

Definition organic_logic (scenario : string) (df : table) : st sim table :=
  match df with
  | Organic rows =>
      idx ← randint 0 (Z.of_nat (List.length rows) - 1);
      if String.eqb scenario "viral" then
        i ← randint 5000 15000;
        r ← randint 2000 8000;
        l ← randint 800 2500;
        h ← randint 100 400;
        mret (Organic (alter (bump_organic i r l h) (Z.to_nat idx) rows))
      else if String.eqb scenario "crisis" then
        i ← randint 1000 3000;
        r ← randint 500 1500;
        l ← randint 0 5;
        mret (Organic (alter (bump_organic i r l 0) (Z.to_nat idx) rows))
      else
        i ← randint 20 100;
        r ← randint 10 50;
        l ← randint 5 20;
        mret (Organic (alter (bump_organic i r l 0) (Z.to_nat idx) rows))
  | _ => key_error "impressions"
  end.

Definition bump_ads (click_bump : Z) (spend : Q) (row : ads_row) : ads_row :=
  mkAds (campaign row) (clicks row + click_bump) (total_spend row + spend).

Definition ads_logic (scenario : string) (df : table) : st sim table :=
  match df with
  | Ads rows =>
      idx ← randint 0 (Z.of_nat (List.length rows) - 1);
      click_bump ← (if String.eqb scenario "viral" then randint 200 600
                    else randint 5 15);
      spend ← uniform 2 15;
      mret (Ads (alter (bump_ads click_bump (py_round spend 2)) (Z.to_nat idx) rows))
  | _ => key_error "clicks"
  end.

Definition organic_files : list string :=
  [ "facebook_organic_posts.csv"; "instagram_organic_posts.csv";
    "linkedin_organic_posts.csv"; "twitter_organic_posts.csv" ]%string.

Definition ads_files : list string :=
  [ "facebook_ads_ad_campaigns.csv"; "google_ads_ad_campaigns.csv";
    "instagram_ads_ad_campaigns.csv" ]%string.

Definition comment_count_of (scenario : string) : Z :=
  if String.eqb scenario "viral" then 10
  else if String.eqb scenario "crisis" then 5 else 1.

(** [run_simulation_cycle]. The request that ends it goes to the dashboard
    and has its failures ignored; it touches nothing here. *)
Definition run_simulation_cycle (scenario : string) : st sim unit :=
  sim_print ([0x1F3AC%N] ++ of_ascii " [SCENARIO: "
             ++ of_ascii (string_map upper_ascii scenario)
             ++ of_ascii "] - Updating all 8 CSVs...") ;;
  new_comment_texts ← generate_ai_comments scenario (comment_count_of scenario);
  update_csv "synthetic_comments_data.csv" (comment_logic new_comment_texts) ;;
  st_for organic_files (fun f => update_csv f (organic_logic scenario) ;; mret tt) ;;
  st_for ads_files (fun f => update_csv f (ads_logic scenario) ;; mret tt) ;;
  sim_print (CHECK_MARK ++ of_ascii " Simulation Complete for "
             ++ of_ascii scenario
             ++ of_ascii ". Triggering Dashboard Refresh...").

End Simulator.

(** A table of two comments, a model that answers LABEL_2 with score 0.9
    for every text, and the files of a first run: the table, the listings
    of [sample_listing], no output yet. *)
Definition sample_comments : list comment_row :=
  [ mkComment (of_ascii "C_5001") "P1" (of_ascii "user_100")
      (PStr (of_ascii "mast product, bilkul sahi")) "2024-01-01 09:58:11";
    mkComment (of_ascii "C_5002") "P9" (of_ascii "user_101")
      (PNonStr (of_ascii "nan")) "2024-01-01 09:59:40" ].

Definition sample_model (texts : list pystr) : outcome (list raw_result) :=
  Return (List.map (fun _ => mkRaw "LABEL_2" (9 # 10)) texts).

Definition sample_files : files :=
  mkFiles (Some sample_comments) sample_listing None None empty_world.

(** The same files with a history log of zero bytes. *)
Definition sample_files_empty_log : files :=
  mkFiles (Some sample_comments) sample_listing None None (mkWorld [] (Some [])).

(** Three emoji; a numbered line; a padded comment; a word that starts
    like a lexicon word. *)
Definition text_three_emoji : pystr := [0x1F60D; 0x1F60D; 0x1F60D]%N.
Definition text_numbered : pystr := of_ascii "12.Great quality".
Definition text_haircut : pystr := of_ascii "haircut".

(** The number of occurrences of a code point in a text. *)
Definition count_cp (c : N) (s : pystr) : nat :=
  List.length (List.filter (N.eqb c) s).

(** The post identifiers the simulator gives to new comments. *)
Definition simulated_post_ids : list string :=
  [ "POST_0001"; "POST_0002"; "POST_0003"; "POST_0004" ]%string.

(** A reply of three lines, the second one blank; a chat model that gives
    it, and one that fails. *)
Definition sample_reply : pystr :=
  of_ascii "Love this!" ++ [NEWLINE; NEWLINE] ++ of_ascii "Finally! " ++ [NEWLINE].

Definition sample_chat (content : string) : outcome pystr := Return sample_reply.

Definition sample_clock (k : nat) : string := "2024-01-01 10:00:07".

Definition failing_chat (content : string) : outcome pystr :=
  Raise (Exn "APIConnectionError" (of_ascii "Connection error.")).

(** A data directory with the comment table, one table of posts and one of
    campaigns, and a table of posts without rows. *)
Definition sample_tables : gmap string table :=
  list_to_map
    [ ("synthetic_comments_data.csv", Comments sample_comments);
      ("facebook_organic_posts.csv",
       Organic [ mkOrganic "P0" 1000 700 50 3; mkOrganic "P1" 2000 900 80 5 ]);
      ("facebook_ads_ad_campaigns.csv", Ads [ mkAds "A1" 40 (25 # 2) ]) ]%string.

Definition sample_sim : sim :=
  mkSim sample_tables [] (fun n => Z.of_nat (7 * n + 3)) O.

Definition sample_sim_empty_posts : sim :=
  mkSim (<["twitter_organic_posts.csv"%string := Organic []]> sample_tables) []
    (fun n => Z.of_nat (7 * n + 3)) O.

(** A computation of the simulator that leaves the files as they are,
    whether it returns or raises; one that leaves one file as it is. *)
Definition keeps_tables {A} (m : st sim A) : Prop :=
  forall s, tables (snd (m s)) = tables s.

Definition keeps_file {A} (file_name : string) (m : st sim A) : Prop :=
  forall s, tables (snd (m s)) !! file_name = tables s !! file_name.

Definition COMMENTS_FILE : string := "synthetic_comments_data.csv".

(** * Properties *)

(** ** Strings *)

(** Equal lists up to the bracketing of [++]. *)
Ltac list_assoc :=
  repeat first [rewrite <- app_assoc | rewrite app_nil_r | progress simpl];
  reflexivity.

Lemma startswith_spec (s p : pystr) :
  startswith s p = true <-> exists b, s = p ++ b.
Proof.
  revert s. induction p as [|a p IH]; intros s; simpl.
  - split; [intros _; by exists s | reflexivity].
  - destruct s as [|b s]; simpl.
    + split; [discriminate | intros [? ?]; discriminate].
    + rewrite andb_true_iff, N.eqb_eq, IH. split.
      * intros [-> [t ->]]. by exists t.
      * intros [t Ht]. injection Ht as -> ->. eauto.
Qed.

Lemma contains_spec (s p : pystr) :
  contains s p = true <-> exists a b, s = a ++ p ++ b.
Proof.
  induction s as [|c s IH].
  - simpl. rewrite orb_false_r, startswith_spec. split.
    + intros [b Hb]. by exists [], b.
    + intros [a [b Hab]]. symmetry in Hab.
      apply app_eq_nil in Hab as [-> Hab]. apply app_eq_nil in Hab as [-> ->].
      by exists [].
  - cbn [contains]. rewrite orb_true_iff, startswith_spec, IH. split.
    + intros [[b Hb] | [a [b Hab]]].
      * by exists [], b.
      * exists (c :: a), b. by rewrite Hab.
    + intros [[|c' a] [b Hab]].
      * left. by exists b.
      * right. injection Hab as -> ->. by exists a, b.
Qed.

Lemma endswith_spec (s p : pystr) :
  endswith s p = true <-> exists a, s = a ++ p.
Proof.
  unfold endswith. rewrite startswith_spec. split.
  - intros [b Hb]. exists (rev b).
    apply (f_equal (@rev N)) in Hb. by rewrite rev_involutive, rev_app_distr, rev_involutive in Hb.
  - intros [a ->]. exists (rev a). by rewrite rev_app_distr.
Qed.

(** ** The lexicon test *)

(** The padded search of the source finds exactly the whole-word
    occurrences. *)
Lemma padded_search_spec (t w : pystr) :
  contains (SPACE :: t ++ [SPACE]) (SPACE :: w ++ [SPACE]) = true
  <-> whole_word_occurrence w t.
Proof.
  rewrite contains_spec. unfold whole_word_occurrence. split.
  - intros [a [b H]].
    destruct a as [|c a]; simpl in H.
    + injection H as H. exists []. simpl.
      destruct b as [|x b _] using rev_ind.
      * rewrite app_nil_r in H. apply app_inj_tail in H as [-> _].
        exists []. rewrite app_nil_r. auto.
      * assert (H' : t ++ [SPACE] = (w ++ SPACE :: b) ++ [x])
          by (rewrite H; list_assoc).
        apply app_inj_tail in H' as [-> _].
        exists (SPACE :: b). simpl. auto.
    + injection H as <- H. exists (a ++ [SPACE]). rewrite last_snoc.
      destruct b as [|x b _] using rev_ind.
      * assert (H' : t ++ [SPACE] = (a ++ SPACE :: w) ++ [SPACE])
          by (rewrite H; list_assoc).
        apply app_inj_tail in H' as [-> _].
        exists []. split; [list_assoc | auto].
      * assert (H' : t ++ [SPACE] = (a ++ SPACE :: w ++ SPACE :: b) ++ [x])
          by (rewrite H; list_assoc).
        apply app_inj_tail in H' as [-> _].
        exists (SPACE :: b). split; [list_assoc | simpl; auto].
  - intros [pre [post [-> [Hpre Hpost]]]].
    assert (exists a, SPACE :: pre = a ++ [SPACE]) as [a Ha].
    { destruct Hpre as [-> | Hl]; [by exists [] |].
      destruct pre as [|x pre _] using rev_ind; [done |].
      rewrite last_snoc in Hl. injection Hl as ->. by exists (SPACE :: pre). }
    assert (exists b, post ++ [SPACE] = SPACE :: b) as [b Hb].
    { destruct Hpost as [-> | Hh]; [by exists [] |].
      destruct post as [|x post]; [done |].
      simpl in Hh. injection Hh as ->. by exists (post ++ [SPACE]). }
    exists a, b.
    transitivity ((SPACE :: pre) ++ w ++ (post ++ [SPACE])); [list_assoc |].
    rewrite Ha, Hb. list_assoc.
Qed.

Lemma word_hit_spec (t w : pystr) :
  word_hit t w = true <-> whole_word_occurrence w t.
Proof.
  unfold word_hit. rewrite !orb_true_iff, padded_search_spec.
  rewrite startswith_spec, endswith_spec. split.
  - intros [[H | [b ->]] | [a ->]]; [exact H | |].
    + exists [], (SPACE :: b). rewrite <- app_assoc. simpl. auto.
    + exists (a ++ [SPACE]), []. rewrite last_snoc, app_nil_r, <- app_assoc. auto.
  - auto.
Qed.

(** [hinglish_count] is the number of lexicon words with a whole-word
    occurrence: a word that occurs several times counts once. *)
Lemma filter_count_words (t : pystr) (ws : list pystr) :
  count_words (fun w => whole_word_occurrence w t) ws
    (List.length (List.filter (word_hit t) ws)).
Proof.
  induction ws as [|w ws IH]; simpl.
  - constructor.
  - destruct (word_hit t w) eqn:E; simpl.
    + apply count_hit; [by apply word_hit_spec | exact IH].
    + apply count_miss; [| exact IH].
      rewrite <- word_hit_spec. congruence.
Qed.

Lemma count_words_unique (P : pystr -> Prop) ws n m :
  count_words P ws n -> count_words P ws m -> n = m.
Proof.
  intros Hn. revert m. induction Hn; intros m' Hm; inversion Hm; subst;
    try done; try (f_equal; auto); auto.
Qed.

(** ** Blank texts *)

Lemma split_aux_nil (cur s : pystr) :
  split_aux cur s = [] -> cur = [] /\ forallb py_isspace s = true.
Proof.
  revert cur. induction s as [|c s IH]; intros cur; simpl.
  - destruct cur; [done | discriminate].
  - destruct (py_isspace c) eqn:E; simpl.
    + destruct cur; [| discriminate]. intros H. by apply IH in H as [_ ->].
    + intros H. apply IH in H as [? _]. discriminate.
Qed.

Lemma lstrip_blank (s : pystr) : forallb py_isspace s = true -> lstrip s = [].
Proof.
  induction s as [|c s IH]; simpl; [done |].
  destruct (py_isspace c); simpl; [exact IH | discriminate].
Qed.

Lemma forallb_rev (f : N -> bool) (s : pystr) :
  forallb f (rev s) = forallb f s.
Proof.
  induction s as [|c s IH]; simpl; [done |].
  rewrite forallb_app, IH. simpl. rewrite andb_true_r. apply andb_comm.
Qed.

Lemma lstrip_idem (s : pystr) : lstrip (lstrip s) = lstrip s.
Proof.
  induction s as [|c s IH]; simpl; [done |].
  destruct (py_isspace c) eqn:E; [exact IH |]. simpl. by rewrite E.
Qed.

(** A stripped text that is blank is empty. *)
Lemma strip_blank_nil (s : pystr) :
  forallb py_isspace (strip s) = true -> strip s = [].
Proof.
  unfold strip, rstrip. intros H. rewrite forallb_rev in H.
  apply lstrip_blank in H. rewrite lstrip_idem in H. by rewrite H.
Qed.

Section ClassifierFacts.

Variable lower : pystr -> pystr.

Lemma detect_language_classify (raw : pystr) (w : world) :
  detect_language lower (PStr raw) w = (Return (classify lower raw), w).
Proof. reflexivity. Qed.

Lemma detect_language_non_str (rendering : pystr) (w : world) :
  detect_language lower (PNonStr rendering) w
  = (Return (classify lower rendering), w).
Proof. reflexivity. Qed.

(** The handler slices its argument: given a value that is not a string
    it raises in its turn. The [try] block never reaches it. *)
Lemma handler_non_str (rendering : pystr) (e : exn) (w : world) :
  exists e', detect_language_handler (PNonStr rendering) e w
             = (Raise e', w).
Proof. eexists. reflexivity. Qed.

(** Without Devanagari and with three code points or more after cleaning,
    the result is decided by the lexicon count and the token count. *)
Lemma classify_lexicon (raw : pystr) :
  search_devanagari (strip raw) = false ->
  (3 <= List.length (clean_text_of raw))%nat ->
  let n := hinglish_count (lower (clean_text_of raw)) in
  let tokens := List.length (split (lower (clean_text_of raw))) in
  classify lower raw
  = if decide ((2 <= n)%nat \/ (n = 1%nat /\ (tokens <= 5)%nat))
    then hinglish else en.
Proof.
  intros Hdev Hlen n tokens. unfold classify, text_str_of.
  rewrite Hdev.
  destruct (Nat.ltb_spec (List.length (clean_text_of raw)) 3) as [Hlt|_]; [lia |].
  cbv zeta. cbn [andb]. fold n. fold tokens.
  destruct (Nat.leb_spec 2 n) as [H2|H2].
  - rewrite decide_True by auto. reflexivity.
  - destruct (Nat.eqb_spec n 1) as [H1|H1]; cbn [andb].
    + destruct (Nat.leb_spec tokens 5) as [H5|H5].
      * rewrite decide_True by auto. reflexivity.
      * rewrite decide_False by lia. reflexivity.
    + rewrite decide_False by lia. reflexivity.
Qed.

(** When lower-casing does not blank a text, a text with Devanagari is
    tagged [hinglish] whatever else it holds: the branch that returns
    [hi] is never taken. *)
Hypothesis lower_keeps_ink :
  forall s, forallb py_isspace (lower s) = true -> forallb py_isspace s = true.

Lemma has_english_always (raw : pystr) :
  (3 <= List.length (clean_text_of raw))%nat ->
  (0 <? List.length (split (lower (clean_text_of raw))))%nat = true.
Proof using lower_keeps_ink.
  intros Hlen. apply Nat.ltb_lt.
  destruct (split (lower (clean_text_of raw))) as [|tok toks] eqn:E;
    [| simpl; lia].
  apply split_aux_nil in E as [_ E]. apply lower_keeps_ink in E.
  unfold clean_text_of in *. apply strip_blank_nil in E.
  rewrite E in Hlen. simpl in Hlen. lia.
Qed.

Lemma classify_devanagari (raw : pystr) :
  search_devanagari (strip raw) = true ->
  (3 <= List.length (clean_text_of raw))%nat ->
  classify lower raw = hinglish.
Proof using lower_keeps_ink.
  intros Hdev Hlen. unfold classify, text_str_of. rewrite Hdev.
  destruct (Nat.ltb_spec (List.length (clean_text_of raw)) 3) as [Hlt|_]; [lia |].
  cbv zeta. by rewrite (has_english_always raw Hlen).
Qed.

Lemma classify_never_hi (raw : pystr) : classify lower raw <> hi.
Proof using lower_keeps_ink.
  unfold classify, text_str_of.
  destruct (Nat.ltb_spec (List.length (clean_text_of raw)) 3) as [Hlt|Hge];
    [discriminate |].
  cbv zeta. rewrite (has_english_always raw Hge).
  destruct (search_devanagari (strip raw)); cbn [andb]; [discriminate |].
  repeat match goal with |- context [if ?b then _ else _] => destruct b end;
    discriminate.
Qed.

End ClassifierFacts.

Lemma lower_basic_latin_keeps_ink (s : pystr) :
  forallb py_isspace (lower_basic_latin s) = true -> forallb py_isspace s = true.
Proof.
  unfold lower_basic_latin. induction s as [|c s IH]; simpl; [done |].
  rewrite !andb_true_iff. intros [Hc Hs]. split; [| auto].
  unfold lower_cp in Hc.
  destruct ((0x41 <=? c) && (c <=? 0x5A)) eqn:E; [| exact Hc].
  apply andb_true_iff in E as [E1 E2].
  apply N.leb_le in E1, E2. exfalso.
  unfold py_isspace in Hc.
  repeat (apply orb_true_iff in Hc as [Hc | Hc]);
    repeat (apply andb_true_iff in Hc as [? Hc]);
    repeat match goal with
           | H : (_ <=? _) = true |- _ => apply N.leb_le in H
           | H : (_ =? _) = true |- _ => apply N.eqb_eq in H
           end; lia.
Qed.

(** ** Rounding *)

Local Open Scope Q_scope.

Lemma round_half_even_near (x : Q) :
  x - (1 # 2) <= inject_Z (round_half_even x) <= x + (1 # 2).
Proof.
  unfold round_half_even.
  pose proof (Qfloor_le x) as Hlo. pose proof (Qlt_floor x) as Hhi.
  rewrite inject_Z_plus in Hhi. change (inject_Z 1) with 1 in Hhi.
  destruct (Qcompare_spec (x - inject_Z (Qfloor x)) (1 # 2)) as [He | Hl | Hg].
  - destruct (Z.even (Qfloor x)); [| rewrite inject_Z_plus; change (inject_Z 1) with 1];
      lra.
  - lra.
  - rewrite inject_Z_plus. change (inject_Z 1) with 1. lra.
Qed.

#[local] Instance round_half_even_comp : Proper (Qeq ==> eq) round_half_even.
Proof.
  intros x y Hxy. unfold round_half_even.
  rewrite (Qfloor_comp x y Hxy).
  assert (Hc : (x - inject_Z (Qfloor y) ?= 1 # 2) = (y - inject_Z (Qfloor y) ?= 1 # 2))
    by (apply Qcompare_comp; [by rewrite Hxy | reflexivity]).
  by rewrite Hc.
Qed.



Lemma pow10_pos (n : nat) : 0 < pow10 n.
Proof.
  unfold pow10. change 0 with (inject_Z 0). rewrite <- Zlt_Qlt.
  apply Z.pow_pos_nonneg; lia.
Qed.

#[local] Instance py_round_comp : Proper (Qeq ==> eq ==> Qeq) py_round.
Proof.
  intros x y Hxy n ? <-. unfold py_round.
  assert (H : x * pow10 n == y * pow10 n) by (by rewrite Hxy).
  by rewrite (round_half_even_comp _ _ H).
Qed.


(** ** Counting labels *)

Lemma value_counts_lookup (values : list string) (v : string) :
  value_counts values !! v
  = match class_count v values with O => None | S c => Some (S c) end.
Proof.
  unfold class_count. induction values as [|a values IH]; simpl.
  - apply lookup_empty.
  - destruct (String.eqb_spec v a) as [<- | Hne].
    + rewrite lookup_insert_eq, IH. simpl.
      by destruct (List.length (List.filter (String.eqb v) values)).
    + by rewrite lookup_insert_ne.
Qed.

(** What the source reads out of [counts] is the percentage of the class. *)
Lemma counts_get_percentage (labels : list string) (cls : string) :
  dict_get (value_counts_pct labels) cls 0 == percentage cls labels.
Proof.
  unfold dict_get, value_counts_pct, percentage.
  rewrite !lookup_fmap, value_counts_lookup.
  destruct (class_count cls labels) as [|c]; simpl; [| reflexivity].
  unfold Qdiv. by rewrite !Qmult_0_l.
Qed.






(** ** Groups and summaries *)




Lemma summarize_health_score (p : string) (group : list classified) :
  health_score (summarize p group)
  == py_round (percentage "positive" (List.map c_label group)
               + (1 # 2) * percentage "neutral" (List.map c_label group)) 2.
Proof.
  unfold summarize. cbn [health_score].
  apply py_round_comp; [| reflexivity].
  rewrite !counts_get_percentage. ring.
Qed.



Local Close Scope Q_scope.

(** ** The post registry *)

Lemma register_posts_lookup (p : string) (post_ids : list string)
    (m : gmap string string) (post_id : string) :
  register_posts p post_ids m !! post_id
  = if bool_decide (post_id ∈ post_ids) then Some (capitalize p)
    else m !! post_id.
Proof.
  unfold register_posts. revert m.
  induction post_ids as [|a post_ids IH]; intros m; simpl.
  - reflexivity.
  - rewrite IH. destruct (decide (post_id ∈ post_ids)) as [Hin | Hnin].
    + rewrite !bool_decide_eq_true_2; [done | by right | done].
    + rewrite (bool_decide_eq_false_2 _ Hnin).
      destruct (decide (a = post_id)) as [-> | Hne].
      * rewrite lookup_insert_eq, bool_decide_eq_true_2; [done | by left].
      * rewrite lookup_insert_ne by done.
        rewrite bool_decide_eq_false_2; [done |].
        intros Hin. apply elem_of_cons in Hin as [-> | Hin]; done.
Qed.

(** The scan over any list of platforms: the last platform that lists the
    post wins. *)
Lemma scan_lookup (listing : string -> option (list string))
    (ps : list string) (m : gmap string string) (post_id : string) :
  foldl (fun m p =>
           match listing p with
           | Some post_ids => register_posts p post_ids m
           | None => m
           end) m ps !! post_id
  = match last (List.filter (listed_in listing post_id) ps) with
    | Some p => Some (capitalize p)
    | None => m !! post_id
    end.
Proof.
  induction ps as [|p ps IH] using rev_ind; [reflexivity |].
  rewrite foldl_app, List.filter_app. simpl. unfold listed_in at 2.
  destruct (listing p) as [post_ids |].
  - rewrite register_posts_lookup.
    destruct (bool_decide (post_id ∈ post_ids)).
    + by rewrite last_snoc.
    + by rewrite app_nil_r.
  - by rewrite app_nil_r.
Qed.

(** ** The history appender, case by case *)

Lemma existsb_eqb_In (x : string) (l : list string) :
  existsb (String.eqb x) l = true <-> In x l.
Proof.
  rewrite existsb_exists. split.
  - intros [y [Hy Heq]]. apply String.eqb_eq in Heq. by subst.
  - intros Hx. exists x. split; [done | apply String.eqb_refl].
Qed.

Ltac run_update_history :=
  unfold update_history, bind, print, isfile_history, read_timestamp_column,
    to_csv_append, ret;
  cbn [history_file console negb fst snd default from_option].

Ltac finish_update_history :=
  cbn [history_file console negb fst snd default from_option app];
  rewrite <- ?app_assoc; reflexivity.

(** The timestamp is already in the log: a warning, and nothing else. *)
Lemma update_history_skip (ts : string) (s : list PlatformSummary) (w : world) :
  is_history_log (history_file w) ->
  In ts (timestamp_column (history_file w)) ->
  update_history ts s w
  = (Return tt,
     mkWorld (console w ++ [updating_line] ++ [skip_warning ts]) (history_file w)).
Proof.
  destruct w as [out [[|[|r] lines]|]]; cbn [history_file is_history_log timestamp_column];
    try done.
  intros _ Hin. apply existsb_eqb_In in Hin.
  run_update_history. rewrite Hin. finish_update_history.
Qed.

(** The timestamp is new and there is nothing to write: the file is not
    touched, and not created. *)
Lemma update_history_nothing (ts : string) (w : world) :
  is_history_log (history_file w) ->
  ~ In ts (timestamp_column (history_file w)) ->
  update_history ts [] w
  = (Return tt, mkWorld (console w ++ [updating_line]) (history_file w)).
Proof.
  destruct w as [out [[|[|r] lines]|]]; cbn [history_file is_history_log timestamp_column];
    try done.
  intros _ Hin. rewrite <- existsb_eqb_In in Hin.
  apply not_true_is_false in Hin.
  run_update_history. rewrite Hin. finish_update_history.
Qed.

(** The timestamp is new and there are rows: they are appended, after the
    header when the file is created. *)
Lemma update_history_append (ts : string) (s : list PlatformSummary) (w : world) :
  is_history_log (history_file w) ->
  ~ In ts (timestamp_column (history_file w)) ->
  s <> [] ->
  update_history ts s w
  = (Return tt,
     mkWorld (console w ++ [updating_line] ++ [updated_line])
       (log_with (history_file w) (history_rows_of ts s))).
Proof.
  destruct s as [|item s]; [done |]. intros Hlog Hin _.
  destruct w as [out [[|[|r] lines]|]]; cbn [history_file is_history_log timestamp_column] in *;
    try done.
  - rewrite <- existsb_eqb_In in Hin. apply not_true_is_false in Hin.
    run_update_history. rewrite Hin.
    cbn [history_rows_of List.map]. unfold log_with. finish_update_history.
  - run_update_history. cbn [history_rows_of List.map]. unfold log_with.
    finish_update_history.
Qed.

Lemma log_with_is_log (file : option (list csv_line)) (rows : list HistoryRecord) :
  is_history_log file -> is_history_log (log_with file rows).
Proof.
  destruct file as [[|[|r] lines]|]; simpl; done.
Qed.

(** Once rows stamped [ts] are in the log, [ts] is in its timestamp
    column. *)
Lemma log_with_has_timestamp (file : option (list csv_line)) (ts : string)
    (s : list PlatformSummary) :
  is_history_log file -> s <> [] ->
  In ts (timestamp_column (log_with file (history_rows_of ts s))).
Proof.
  destruct s as [|item s]; [done |]. intros Hlog _.
  destruct file as [[|[|r] lines]|]; simpl in *; try done.
  - rewrite List.map_app, in_app_iff. right. simpl. by left.
  - by left.
Qed.

Lemma update_history_twice_unfold (ts : string) (s : list PlatformSummary) (w : world) :
  update_history_twice ts s w
  = match update_history ts s w with
    | (Return _, w') => update_history ts s w'
    | (Raise e, w') => (Raise e, w')
    end.
Proof. reflexivity. Qed.

(** * The claims of the specification *)

Local Close Scope N_scope.

(** ** Language classifier *)

(** C1. The specification has a text in Devanagari alone classified [hi].
    The source sets [has_english] to "the text has a token", which holds of
    every text that reaches the test, so the branch [hinglish] is taken
    first: the text "yah bahut achchha hai" written in Devanagari, which
    holds nothing but Devanagari letters and spaces, is classified
    [hinglish], and no text at all is classified [hi]. *)
Theorem detect_language_pure_hindi (w : world) :
  forallb (fun c => is_devanagari c || (c =? SPACE)%N) text_pure_hindi = true
  /\ (3 <= List.length (clean_text_of text_pure_hindi))
  /\ detect_language lower_basic_latin (PStr text_pure_hindi) w
     = (Return hinglish, w)
  /\ (forall text, detect_language lower_basic_latin text w <> (Return hi, w)).
Proof.
  split; [reflexivity |]. split; [vm_compute; lia |]. split.
  - rewrite detect_language_classify. f_equal.
  - intros [raw | raw] H;
      [rewrite detect_language_classify in H
      | rewrite detect_language_non_str in H];
      injection H as H;
      exact (classify_never_hi _ lower_basic_latin_keeps_ink raw H).
Qed.

(** C6, as the source has it. For a text without Devanagari whose cleaned
    form has three code points or more, the classifier counts the lexicon
    words that occur as a whole word, bounded by a space or an edge of the
    lower-cased cleaned text, each word once however often it occurs; it
    returns [hinglish] when that count is at least 2, or is 1 with at most 5
    whitespace-separated tokens, and [en] otherwise. *)
Theorem detect_language_lexicon (lower : pystr -> pystr) (raw : pystr) (w : world) :
  search_devanagari (strip raw) = false ->
  3 <= List.length (clean_text_of raw) ->
  let text_lower := lower (clean_text_of raw) in
  exists n,
    count_words (fun word => whole_word_occurrence word text_lower) hinglish_words n
    /\ detect_language lower (PStr raw) w
       = (Return (if decide (2 <= n \/ (n = 1 /\ List.length (split text_lower) <= 5))
                  then hinglish else en), w).
Proof.
  intros Hdev Hlen text_lower.
  exists (hinglish_count text_lower). split.
  - apply filter_count_words.
  - rewrite detect_language_classify.
    by rewrite (classify_lexicon lower raw Hdev Hlen).
Qed.

(** The scenario of C6: "mast product, bilkul sahi" is classified
    [hinglish]. *)
Lemma detect_language_lexicon_mast :
  search_devanagari (strip text_mast) = false
  /\ 3 <= List.length (clean_text_of text_mast)
  /\ detect_language lower_basic_latin (PStr text_mast) empty_world
     = (Return hinglish, empty_world).
Proof.
  split; [reflexivity |]. split; [vm_compute; lia |].
  destruct (detect_language_lexicon lower_basic_latin text_mast empty_world)
    as [n [Hn ->]]; [reflexivity | vm_compute; lia |].
  pose proof (filter_count_words (lower_basic_latin (clean_text_of text_mast))
                hinglish_words) as H3.
  rewrite (count_words_unique _ _ _ _ Hn H3). reflexivity.
Defined.

(** C6 as the specification words it fails in three ways. Three occurrences
    of one lexicon word among six tokens leave the count at 1: [en]. A
    lexicon word of two letters is cut off by the length test: [en]. Two
    lexicon words with a tab between them are not bounded by spaces:
    [en]. *)
Lemma lexicon_occurrences_counterexample :
  (search_devanagari (strip text_repeated_word) = false
   /\ spec_lexicon_occurrences (lower_basic_latin (clean_text_of text_repeated_word)) = 3
   /\ detect_language lower_basic_latin (PStr text_repeated_word) empty_world
      = (Return en, empty_world))
  /\ (search_devanagari (strip text_two_letters) = false
      /\ spec_lexicon_occurrences (lower_basic_latin (clean_text_of text_two_letters)) = 1
      /\ List.length (split (lower_basic_latin (clean_text_of text_two_letters))) = 1
      /\ detect_language lower_basic_latin (PStr text_two_letters) empty_world
         = (Return en, empty_world))
  /\ (search_devanagari (strip text_tab_separated) = false
      /\ spec_lexicon_occurrences (lower_basic_latin (clean_text_of text_tab_separated)) = 2
      /\ detect_language lower_basic_latin (PStr text_tab_separated) empty_world
         = (Return en, empty_world)).
Proof. vm_compute. repeat split. Qed.


(** ** Label normaliser *)

Local Open Scope Q_scope.

Lemma py_round_near (x : Q) (n : nat) :
  x - (1 # 2) / pow10 n <= py_round x n <= x + (1 # 2) / pow10 n.
Proof.
  unfold py_round. pose proof (pow10_pos n) as Hp.
  pose proof (round_half_even_near (x * pow10 n)) as [Hlo Hhi].
  assert (Hx : x == x * pow10 n / pow10 n) by (field; lra).
  split.
  - apply Qle_shift_div_l; [exact Hp |].
    assert (H : (x - (1 # 2) / pow10 n) * pow10 n == x * pow10 n - (1 # 2))
      by (field; lra).
    by rewrite H.
  - apply Qle_shift_div_r; [exact Hp |].
    assert (H : (x + (1 # 2) / pow10 n) * pow10 n == x * pow10 n + (1 # 2))
      by (field; lra).
    by rewrite H.
Qed.

(** C5. A label of the known vocabulary is mapped to one of positive,
    neutral, negative, with LABEL_0, LABEL_1, LABEL_2 going to negative,
    neutral, positive; any other label is returned as it is; the score is
    the model's score rounded to 4 decimals: a multiple of 1/10000 at most
    half of 1/10000 away from it. *)
Theorem label_normalisation :
  (dict_get label_map "LABEL_0" "LABEL_0" = "negative"
   /\ dict_get label_map "LABEL_1" "LABEL_1" = "neutral"
   /\ dict_get label_map "LABEL_2" "LABEL_2" = "positive")%string
  /\ (forall l, In l known_vocabulary -> canonical (dict_get label_map l l))
  /\ (forall l, ~ In l known_vocabulary -> dict_get label_map l l = l)
  /\ (forall results,
         Forall2 (fun r l => l = dict_get label_map (label r) (label r))
           results (normalized_labels results)
         /\ Forall2 (fun r s =>
                       s = py_round (score r) 4
                       /\ s = inject_Z (round_half_even (score r * 10000)) / 10000
                       /\ score r - (1 # 20000) <= s <= score r + (1 # 20000))
              results (rounded_scores results)).
Proof.
  split; [by vm_compute |]. split; [| split].
  - intros l Hl. unfold canonical. simpl in Hl.
    destruct Hl as [<- | [<- | [<- | [<- | [<- | [<- | []]]]]]]; vm_compute; auto.
  - intros l Hl. unfold dict_get, label_map.
    rewrite (not_elem_of_list_to_map_1 _ l); [reflexivity |].
    intros Hin. apply Hl. by apply list_elem_of_In in Hin.
  - intros results. split.
    + unfold normalized_labels. induction results; simpl; by constructor.
    + unfold rounded_scores. induction results as [|r results IH]; simpl;
        constructor; [| exact IH].
      split; [reflexivity |]. split; [reflexivity |].
      pose proof (py_round_near (score r) 4) as H.
      change ((1 # 2) / pow10 4) with (1 # 20000) in H. exact H.
Qed.

Lemma label_normalisation_witness :
  canonical (dict_get label_map "LABEL_2" "LABEL_2")
  /\ dict_get label_map "mixed" "mixed" = "mixed"%string.
Proof.
  split.
  - apply (proj1 (proj2 label_normalisation)). vm_compute. auto 10.
  - apply (proj1 (proj2 (proj2 label_normalisation))). vm_compute.
    intros H. repeat destruct H as [H | H]; try discriminate H. exact H.
Defined.

Local Close Scope Q_scope.

(** ** Platform attribution *)

(** C8. A post that is a key of the registry is attributed the platform the
    registry holds for it, any other post "General". In the registry built
    from the listings, the platform of a post is the capitalised name of the
    last platform that lists it, in the order instagram, twitter, facebook,
    linkedin; a platform without a listing file takes no part. *)
Theorem platform_attribution (listing : string -> option (list string))
    (post_to_platform : gmap string string) (post_id : string) :
  (forall p, post_to_platform !! post_id = Some p ->
             attribute_platform post_to_platform post_id = p)
  /\ (post_to_platform !! post_id = None ->
      attribute_platform post_to_platform post_id = "General"%string)
  /\ attribute_platform (build_post_to_platform listing) post_id
     = match last (List.filter (listed_in listing post_id) platforms) with
       | Some p => capitalize p
       | None => "General"%string
       end
  /\ List.map capitalize platforms
     = [ "Instagram"; "Twitter"; "Facebook"; "Linkedin" ]%string.
Proof.
  unfold attribute_platform. split; [by intros p -> |]. split; [by intros -> |].
  split; [| reflexivity].
  unfold build_post_to_platform. rewrite scan_lookup, lookup_empty.
  by destruct (last _).
Qed.

Lemma platform_attribution_witness :
  build_post_to_platform sample_listing !! "P1"%string = Some "Facebook"%string
  /\ attribute_platform (build_post_to_platform sample_listing) "P1" = "Facebook"%string
  /\ build_post_to_platform sample_listing !! "P9"%string = None
  /\ attribute_platform (build_post_to_platform sample_listing) "P9" = "General"%string.
Proof.
  assert (H1 : build_post_to_platform sample_listing !! "P1"%string
               = Some "Facebook"%string) by (by vm_compute).
  assert (H9 : build_post_to_platform sample_listing !! "P9"%string = None)
    by (by vm_compute).
  split; [exact H1 |]. split.
  - exact (proj1 (platform_attribution sample_listing _ "P1"%string) _ H1).
  - split; [exact H9 |].
    exact (proj1 (proj2 (platform_attribution sample_listing _ "P9"%string)) H9).
Defined.

(** ** Aggregation *)

Local Open Scope Q_scope.






Local Close Scope Q_scope.

(** ** History appender *)

(** C3. When the timestamp of the run is already in the timestamp column of
    the log, whatever the platform of the line that holds it and whatever
    the summaries of the run, [update_history] prints the warning and
    returns: the file is the one it found, no row is written. *)
Theorem update_history_duplicate (ts : string) (s : list PlatformSummary)
    (w : world) (lines : list csv_line) :
  history_file w = Some (HeaderLine :: lines) ->
  In ts (List.map line_timestamp lines) ->
  update_history ts s w
  = (Return tt,
     mkWorld (console w ++ [updating_line] ++ [skip_warning ts])
       (Some (HeaderLine :: lines))).
Proof.
  intros Hfile Hin.
  rewrite (update_history_skip ts s w); rewrite Hfile; done.
Qed.

(** The scenario of C3: the log holds a line of Instagram stamped
    2024-01-01 10:00, and a run at that minute brings a summary of
    Facebook. *)
Lemma update_history_duplicate_witness :
  let s := [ mkSummary "Facebook" 50 (mkDistribution 50 0 50) 2 ] in
  history_file (snd (update_history "2024-01-01 10:00" s logged_world))
  = history_file logged_world
  /\ console (snd (update_history "2024-01-01 10:00" s logged_world))
     = [ updating_line; skip_warning "2024-01-01 10:00" ].
Proof.
  intros s.
  rewrite (update_history_duplicate "2024-01-01 10:00" s logged_world
             [ RecordLine (mkHistoryRecord "2024-01-01 10:00" "Instagram" 75) ]).
  - split; reflexivity.
  - reflexivity.
  - simpl. auto.
Defined.

(** C4. On a log, or with no file yet, two runs of [update_history] at the
    same minute return as one does and leave the file that one leaves. When
    the minute is new and there are summaries, that file is the old one, or
    the header, followed by one row per summary, in the order of the list,
    each with the timestamp, the platform and the health score of its
    summary. *)
Theorem update_history_idempotent (ts : string) (s : list PlatformSummary)
    (w : world) :
  is_history_log (history_file w) ->
  fst (update_history ts s w) = Return tt
  /\ fst (update_history_twice ts s w) = Return tt
  /\ history_file (snd (update_history_twice ts s w))
     = history_file (snd (update_history ts s w))
  /\ (~ In ts (timestamp_column (history_file w)) -> s <> [] ->
      history_file (snd (update_history_twice ts s w))
      = Some (default [HeaderLine] (history_file w)
              ++ List.map (fun item =>
                             RecordLine (mkHistoryRecord ts (platform item)
                                           (health_score item))) s)).
Proof.
  intros Hlog. rewrite update_history_twice_unfold.
  destruct (in_dec String.string_dec ts (timestamp_column (history_file w)))
    as [Hin | Hnin].
  - rewrite (update_history_skip ts s w Hlog Hin). cbn [fst snd history_file].
    rewrite update_history_skip by done. cbn [fst snd history_file].
    repeat split; done.
  - destruct s as [|item s].
    + rewrite (update_history_nothing ts w Hlog Hnin). cbn [fst snd history_file].
      rewrite update_history_nothing by done. cbn [fst snd history_file].
      repeat split; done.
    + rewrite (update_history_append ts (item :: s) w Hlog Hnin) by done.
      cbn [fst snd history_file].
      rewrite update_history_skip.
      * cbn [fst snd history_file]. repeat split; try done.
        intros _ _. unfold log_with, history_rows_of.
        by rewrite List.map_map.
      * cbn [history_file]. by apply log_with_is_log.
      * cbn [history_file]. by apply log_with_has_timestamp.
Qed.

(** A first run of the pipeline, with no file yet, then a second in the
    same minute: the header and one set of rows. *)
Lemma update_history_idempotent_witness :
  let s := summary_data_of scenario_df in
  history_file (snd (update_history_twice "2024-01-01 10:00" s empty_world))
  = history_file (snd (update_history "2024-01-01 10:00" s empty_world))
  /\ history_file (snd (update_history "2024-01-01 10:00" s empty_world))
     = Some [ HeaderLine;
              RecordLine (mkHistoryRecord "2024-01-01 10:00" "Instagram"
                            (health_score (summarize "Instagram" scenario_df))) ].
Proof.
  intros s. split.
  - exact (proj1 (proj2 (proj2
             (update_history_idempotent "2024-01-01 10:00" s empty_world I)))).
  - reflexivity.
Defined.

(** C10. With an empty list of summaries [update_history] leaves the file
    of the log as it is, whatever it is; when there is no file, none is
    created, and the call returns after its first message. *)
Theorem update_history_empty_summary (ts : string) (w : world) :
  history_file (snd (update_history ts [] w)) = history_file w
  /\ (history_file w = None ->
      update_history ts [] w
      = (Return tt, mkWorld (console w ++ [updating_line]) None))
  /\ (is_history_log (history_file w) -> fst (update_history ts [] w) = Return tt).
Proof.
  split; [| split].
  - destruct w as [out [[|[|r] lines]|]]; try reflexivity.
    run_update_history.
    destruct (existsb (String.eqb ts) (List.map line_timestamp lines));
      reflexivity.
  - destruct w as [out file]. cbn [history_file]. intros ->. reflexivity.
  - intros Hlog.
    destruct (in_dec String.string_dec ts (timestamp_column (history_file w)))
      as [Hin | Hnin].
    + by rewrite (update_history_skip ts [] w Hlog Hin).
    + by rewrite (update_history_nothing ts w Hlog Hnin).
Qed.

Lemma update_history_empty_summary_witness :
  update_history "2024-01-01 10:00" [] empty_world
  = (Return tt, mkWorld [ updating_line ] None)
  /\ fst (update_history "2024-01-01 10:01" [] logged_world) = Return tt
  /\ history_file (snd (update_history "2024-01-01 10:01" [] logged_world))
     = history_file logged_world.
Proof.
  split; [| split].
  - apply (proj1 (proj2 (update_history_empty_summary "2024-01-01 10:00" empty_world))).
    reflexivity.
  - apply (proj2 (proj2 (update_history_empty_summary "2024-01-01 10:01" logged_world))).
    exact I.
  - apply (proj1 (update_history_empty_summary "2024-01-01 10:01" logged_world)).
Defined.

(** * Further properties of the code *)

(** ** The history log over several runs *)

Lemma log_records_proper (records : list HistoryRecord) :
  log_records (Some (HeaderLine :: List.map RecordLine records)) = records.
Proof.
  simpl. induction records as [|r records IH]; simpl; [done |].
  by rewrite IH.
Qed.

Lemma proper_log_is_log (file : option (list csv_line)) :
  proper_log file -> is_history_log file.
Proof. destruct file as [lines |]; [| done]. by intros [records ->]. Qed.

Lemma timestamp_column_proper (records : list HistoryRecord) :
  timestamp_column (Some (HeaderLine :: List.map RecordLine records))
  = List.map hr_timestamp records.
Proof. simpl. by rewrite List.map_map. Qed.

Lemma log_with_proper (file : option (list csv_line)) (rows : list HistoryRecord) :
  proper_log file ->
  log_with file rows
  = Some (HeaderLine :: List.map RecordLine (log_records file ++ rows)).
Proof.
  destruct file as [lines |].
  - intros [records ->]. rewrite log_records_proper. unfold log_with. simpl.
    by rewrite List.map_app.
  - intros _. reflexivity.
Qed.

Lemma not_in_existsb (x : string) (l : list string) :
  ~ In x l <-> existsb (String.eqb x) l = false.
Proof. rewrite <- existsb_eqb_In. by destruct (existsb _ _). Qed.

(** What one call does to a proper log, in terms of its records. *)
Lemma update_history_records (ts : string) (s : list PlatformSummary) (w : world) :
  proper_log (history_file w) ->
  fst (update_history ts s w) = Return tt
  /\ proper_log (history_file (snd (update_history ts s w)))
  /\ log_records (history_file (snd (update_history ts s w)))
     = log_records (history_file w)
       ++ (if existsb (String.eqb ts)
                 (List.map hr_timestamp (log_records (history_file w)))
           then [] else history_rows_of ts s).
Proof.
  intros Hp. pose proof (proper_log_is_log _ Hp) as Hlog.
  assert (Hcol : timestamp_column (history_file w)
                 = List.map hr_timestamp (log_records (history_file w))).
  { destruct (history_file w) as [lines |]; [| done].
    destruct Hp as [records ->].
    by rewrite timestamp_column_proper, log_records_proper. }
  rewrite <- Hcol.
  destruct (existsb (String.eqb ts) (timestamp_column (history_file w))) eqn:E.
  - apply existsb_eqb_In in E.
    rewrite (update_history_skip ts s w Hlog E).
    cbn [fst snd history_file]. by rewrite app_nil_r.
  - assert (Hnin : ~ In ts (timestamp_column (history_file w))).
    { rewrite <- existsb_eqb_In. congruence. }
    destruct s as [|item s].
    + rewrite (update_history_nothing ts w Hlog Hnin). cbn [fst snd history_file].
      by rewrite app_nil_r.
    + rewrite (update_history_append ts (item :: s) w Hlog Hnin) by done.
      cbn [fst snd history_file]. rewrite (log_with_proper _ _ Hp).
      split; [done |]. split; [by eexists |]. apply log_records_proper.
Qed.

(** X1. On a log with its header at the top and records below, or with no
    file yet, [update_history] returns normally and leaves such a log: it
    never writes a second header, never removes or changes a record, and
    what it adds, at the end, is nothing or the rows of this run, all
    stamped with the run's minute. *)
Theorem update_history_append_only (ts : string) (s : list PlatformSummary)
    (w : world) :
  proper_log (history_file w) ->
  exists rows,
    fst (update_history ts s w) = Return tt
    /\ proper_log (history_file (snd (update_history ts s w)))
    /\ log_records (history_file (snd (update_history ts s w)))
       = log_records (history_file w) ++ rows
    /\ (rows = [] \/ rows = history_rows_of ts s)
    /\ Forall (fun r => hr_timestamp r = ts) rows.
Proof.
  intros Hp. destruct (update_history_records ts s w Hp) as [Hr [Hp' Hrec]].
  eexists. split; [exact Hr |]. split; [exact Hp' |]. split; [exact Hrec |].
  destruct (existsb _ _).
  - split; [by left | constructor].
  - split; [by right |]. unfold history_rows_of.
    apply List.Forall_forall. intros r Hin.
    apply in_map_iff in Hin as [item [<- _]]. reflexivity.
Qed.

Lemma update_history_append_only_witness :
  exists rows,
    log_records (history_file
                   (snd (update_history "2024-01-01 10:01"
                           (summary_data_of scenario_df) logged_world)))
    = log_records (history_file logged_world) ++ rows
    /\ Forall (fun r => hr_timestamp r = "2024-01-01 10:01"%string) rows.
Proof.
  destruct (update_history_append_only "2024-01-01 10:01"
              (summary_data_of scenario_df) logged_world)
    as [rows [_ [_ [Hrec [_ Hts]]]]].
  - by exists [ mkHistoryRecord "2024-01-01 10:00" "Instagram" 75 ].
  - by exists rows.
Defined.

(** X2. Runs at two different minutes, neither of them in the log yet, each
    leave their rows: the log ends up with the rows of the first run
    followed by the rows of the second. *)
Theorem update_history_two_minutes (ts1 ts2 : string)
    (s1 s2 : list PlatformSummary) (w : world) :
  proper_log (history_file w) ->
  ts1 <> ts2 ->
  ~ In ts1 (List.map hr_timestamp (log_records (history_file w))) ->
  ~ In ts2 (List.map hr_timestamp (log_records (history_file w))) ->
  let w1 := snd (update_history ts1 s1 w) in
  let w2 := snd (update_history ts2 s2 w1) in
  fst (update_history ts2 s2 w1) = Return tt
  /\ log_records (history_file w2)
     = log_records (history_file w) ++ history_rows_of ts1 s1
       ++ history_rows_of ts2 s2.
Proof.
  intros Hp Hne H1 H2 w1 w2.
  apply not_in_existsb in H1, H2.
  destruct (update_history_records ts1 s1 w Hp) as [_ [Hp1 Hrec1]].
  rewrite H1 in Hrec1. fold w1 in Hp1, Hrec1.
  destruct (update_history_records ts2 s2 w1 Hp1) as [Hr2 [_ Hrec2]].
  split; [exact Hr2 |]. subst w2. rewrite Hrec2, Hrec1.
  rewrite (proj1 (not_in_existsb ts2 _)); [by rewrite <- app_assoc |].
  apply not_in_existsb in H2.
  rewrite List.map_app, in_app_iff. intros [Hin | Hin]; [done |].
  unfold history_rows_of in Hin. rewrite List.map_map in Hin.
  apply in_map_iff in Hin as [item [Heq _]]. simpl in Heq. congruence.
Qed.

Lemma update_history_two_minutes_witness :
  let s := summary_data_of scenario_df in
  let w1 := snd (update_history "2024-01-01 10:01" s logged_world) in
  let w2 := snd (update_history "2024-01-01 10:02" s w1) in
  log_records (history_file w2)
  = log_records (history_file logged_world)
    ++ history_rows_of "2024-01-01 10:01" s ++ history_rows_of "2024-01-01 10:02" s.
Proof.
  intros s w1 w2.
  refine (proj2 (update_history_two_minutes "2024-01-01 10:01" "2024-01-01 10:02"
                   s s logged_world _ _ _ _)).
  - by exists [ mkHistoryRecord "2024-01-01 10:00" "Instagram" 75 ].
  - discriminate.
  - simpl. intros [H | []]. discriminate H.
  - simpl. intros [H | []]. discriminate H.
Defined.

(** X3. If no two records of the log share minute and platform, and the
    summaries of the run are of different platforms, then no two records
    share minute and platform after the run. *)
Theorem update_history_keys_unique (ts : string) (s : list PlatformSummary)
    (w : world) :
  proper_log (history_file w) ->
  NoDup (List.map record_key (log_records (history_file w))) ->
  NoDup (List.map platform s) ->
  NoDup (List.map record_key
           (log_records (history_file (snd (update_history ts s w))))).
Proof.
  intros Hp Hold Hs.
  destruct (update_history_records ts s w Hp) as [_ [_ Hrec]]. rewrite Hrec.
  destruct (existsb (String.eqb ts)
              (List.map hr_timestamp (log_records (history_file w)))) eqn:E.
  - by rewrite app_nil_r.
  - apply not_in_existsb in E. rename E into Hnin. rewrite List.map_app.
    apply NoDup_app. split; [exact Hold |]. split.
    + intros key Hk1 Hk2. apply list_elem_of_In in Hk1, Hk2.
      apply in_map_iff in Hk1 as [r [<- Hr]].
      unfold history_rows_of in Hk2. rewrite List.map_map in Hk2.
      apply in_map_iff in Hk2 as [item [Heq _]].
      unfold record_key in Heq. simpl in Heq. injection Heq as Hts _.
      apply Hnin. rewrite Hts. by apply in_map.
    + unfold history_rows_of. rewrite List.map_map.
      change (fun x => record_key (mkHistoryRecord ts (platform x) (health_score x)))
        with (fun x => (ts, platform x)).
      rewrite <- (List.map_map platform (fun p => (ts, p))).
      change (NoDup ((fun p => (ts, p)) <$> List.map platform s)).
      apply NoDup_fmap_2; [| exact Hs]. intros p q Hpq. by injection Hpq.
Qed.

Lemma update_history_keys_unique_witness :
  NoDup (List.map record_key
           (log_records
              (history_file
                 (snd (update_history "2024-01-01 10:01"
                         (summary_data_of scenario_df) logged_world))))).
Proof.
  apply update_history_keys_unique.
  - by exists [ mkHistoryRecord "2024-01-01 10:00" "Instagram" 75 ].
  - simpl. apply NoDup_singleton.
  - vm_compute. apply NoDup_singleton.
Defined.

(** ** The summary as a whole *)

Lemma string_compare_trans (a b c : string) :
  String.compare a b <> Gt -> String.compare b c <> Gt -> String.compare a c <> Gt.
Proof.
  revert b c. induction a as [|x a IH]; intros [|y b] [|z c]; simpl; try done.
  unfold Ascii.compare.
  destruct (N.compare_spec (N_of_ascii x) (N_of_ascii y)),
    (N.compare_spec (N_of_ascii y) (N_of_ascii z)),
    (N.compare_spec (N_of_ascii x) (N_of_ascii z));
    try lia; try done. apply IH.
Qed.

#[local] Instance key_le_trans : Transitive key_le.
Proof.
  intros a b c. unfold key_le, String.leb. intros Hab Hbc.
  pose proof (string_compare_trans a b c) as H.
  destruct (String.compare a b), (String.compare b c), (String.compare a c);
    try done; exfalso; apply H; done.
Qed.

#[local] Instance key_le_total : Total key_le.
Proof.
  intros a b. unfold key_le.
  destruct (String.leb_total a b) as [-> | ->]; [by left | by right].
Qed.

Lemma summary_platforms (df : list classified) :
  List.map platform (summary_data_of df)
  = merge_sort key_le (remove_dups (List.map c_platform df)).
Proof.
  unfold summary_data_of, groupby. rewrite !List.map_map. simpl.
  apply List.map_id.
Qed.

Lemma group_of_cons (k : string) (r : classified) (df : list classified) :
  group_of k (r :: df)
  = if decide (c_platform r = k) then r :: group_of k df else group_of k df.
Proof. unfold group_of. by rewrite filter_cons. Qed.

Lemma group_sizes_skip (keys : list string) (r : classified)
    (df : list classified) :
  ~ In (c_platform r) keys ->
  sum_list (List.map (fun k => List.length (group_of k (r :: df))) keys)
  = sum_list (List.map (fun k => List.length (group_of k df)) keys).
Proof.
  induction keys as [|k keys IH]; intros Hnot; [done |].
  cbn [List.map sum_list foldr]. rewrite group_of_cons.
  rewrite decide_False by (intros Heq; apply Hnot; by left).
  rewrite IH; [done |]. intros ?. apply Hnot. by right.
Qed.

Lemma group_sizes_step (keys : list string) (r : classified)
    (df : list classified) :
  NoDup keys -> In (c_platform r) keys ->
  sum_list (List.map (fun k => List.length (group_of k (r :: df))) keys)
  = S (sum_list (List.map (fun k => List.length (group_of k df)) keys)).
Proof.
  induction keys as [|k keys IH]; intros Hnd Hr; [done |].
  apply NoDup_cons in Hnd as [Hk Hnd].
  cbn [List.map sum_list foldr]. rewrite group_of_cons.
  destruct (decide (c_platform r = k)) as [Heq | Hne].
  - rewrite group_sizes_skip; [done |].
    rewrite Heq, <- list_elem_of_In. exact Hk.
  - destruct Hr as [-> | Hr]; [done |].
    rewrite (IH Hnd Hr). lia.
Qed.

(** The sizes of the groups of distinct keys that cover the table add up
    to the size of the table. *)
Lemma group_sizes_sum (keys : list string) (df : list classified) :
  NoDup keys ->
  (forall r, In r df -> In (c_platform r) keys) ->
  sum_list (List.map (fun k => List.length (group_of k df)) keys)
  = List.length df.
Proof.
  intros Hnd. induction df as [|r df IH]; intros Hcov.
  - clear. induction keys as [|k keys IH]; [done |].
    cbn [List.map sum_list foldr]. by rewrite IH.
  - rewrite group_sizes_step; [| exact Hnd | apply Hcov; by left].
    rewrite IH; [done |]. intros; apply Hcov; by right.
Qed.

Lemma summary_platforms_NoDup (df : list classified) :
  NoDup (List.map platform (summary_data_of df)).
Proof.
  rewrite summary_platforms, merge_sort_Permutation. apply NoDup_remove_dups.
Qed.

Lemma summary_platforms_In (df : list classified) (p : string) :
  In p (List.map platform (summary_data_of df)) <-> In p (List.map c_platform df).
Proof.
  rewrite summary_platforms, <- !list_elem_of_In, merge_sort_Permutation.
  apply elem_of_remove_dups.
Qed.

Lemma summary_total_comments (df : list classified) :
  sum_list (List.map total_comments (summary_data_of df)) = List.length df.
Proof.
  pose proof (summary_platforms_NoDup df) as Hnd.
  pose proof (summary_platforms_In df) as Hin.
  rewrite summary_platforms in Hnd, Hin.
  unfold summary_data_of, groupby. rewrite !List.map_map. simpl.
  apply group_sizes_sum; [exact Hnd |].
  intros r Hr. apply Hin. by apply in_map.
Qed.

(** X4. The summary of a run holds one entry per platform that has a
    comment, no platform twice, in increasing order of platform name; the
    comment counts of its entries add up to the number of comments of the
    table. *)
Theorem summary_data_of_partition (df : list classified) :
  NoDup (List.map platform (summary_data_of df))
  /\ StronglySorted key_le (List.map platform (summary_data_of df))
  /\ (forall p, In p (List.map platform (summary_data_of df))
                <-> In p (List.map c_platform df))
  /\ sum_list (List.map total_comments (summary_data_of df)) = List.length df.
Proof.
  split; [apply summary_platforms_NoDup |]. split.
  - rewrite summary_platforms. apply StronglySorted_merge_sort; apply _.
  - split; [apply summary_platforms_In | apply summary_total_comments].
Qed.

(** ** The range of the platform column *)

Lemma last_filter_In (f : string -> bool) (l : list string) (x : string) :
  last (List.filter f l) = Some x -> In x l.
Proof.
  intros H. apply last_Some_elem_of, list_elem_of_In, List.filter_In in H.
  tauto.
Qed.

Lemma attribute_platform_names (listing : string -> option (list string))
    (post_id : string) :
  In (attribute_platform (build_post_to_platform listing) post_id) platform_names.
Proof.
  unfold attribute_platform, build_post_to_platform.
  rewrite scan_lookup, lookup_empty.
  destruct (last _) as [p |] eqn:E; [| simpl; auto 10].
  apply last_filter_In in E. simpl in E.
  destruct E as [<- | [<- | [<- | [<- | []]]]]; simpl; auto 10.
Qed.

Lemma summary_at_most_five (df : list classified) :
  (forall r, In r df -> In (c_platform r) platform_names) ->
  (List.length (summary_data_of df) <= 5)%nat.
Proof.
  intros Hdf. rewrite <- (List.length_map platform).
  change 5%nat with (List.length platform_names).
  apply NoDup_incl_length; [apply NoDup_ListNoDup, summary_platforms_NoDup |].
  intros p Hp. apply summary_platforms_In in Hp.
  apply in_map_iff in Hp as [r [<- Hr]]. by apply Hdf.
Qed.

(** X5. Whatever the listings hold, a post is attributed one of Instagram,
    Twitter, Facebook, Linkedin and General, and General exactly when no
    listing that exists holds the post. *)
Theorem attribute_platform_range (listing : string -> option (list string))
    (post_id : string) :
  In (attribute_platform (build_post_to_platform listing) post_id) platform_names
  /\ (attribute_platform (build_post_to_platform listing) post_id = "General"%string
      <-> forall p, In p platforms -> listed_in listing post_id p = false).
Proof.
  split; [apply attribute_platform_names |].
  unfold attribute_platform, build_post_to_platform.
  rewrite scan_lookup, lookup_empty.
  destruct (last _) as [p |] eqn:E.
  - pose proof E as Hp. apply last_Some_elem_of, list_elem_of_In in Hp.
    apply List.filter_In in Hp as [Hp Hl]. split.
    + intros Hg. exfalso. simpl in Hp.
      destruct Hp as [<- | [<- | [<- | [<- | []]]]]; discriminate Hg.
    + intros Hall. rewrite (Hall p Hp) in Hl. discriminate Hl.
  - split; [| done]. intros _ p Hp.
    apply last_None in E.
    destruct (listed_in listing post_id p) eqn:Hl; [| done].
    assert (Hin : In p (List.filter (listed_in listing post_id) platforms))
      by (apply List.filter_In; done).
    rewrite E in Hin. destruct Hin.
Qed.

(** ** The run as a whole *)

Lemma apply_detect_language_run (lower : pystr -> pystr) (column : list pyval)
    (w : world) :
  apply_detect_language lower column w
  = (Return (List.map (fun v => classify lower (rendering_of v)) column), w).
Proof.
  induction column as [|v column IH]; [reflexivity |].
  cbn [apply_detect_language List.map]. unfold bind at 1.
  assert (Hv : detect_language lower v w
               = (Return (classify lower (rendering_of v)), w))
    by (destruct v; reflexivity).
  rewrite Hv. unfold bind at 1. rewrite IH. reflexivity.
Qed.

(** What [update_history] does to the log does not depend on the
    console. *)
Lemma update_history_console (ts : string) (s : list PlatformSummary)
    (w1 w2 : world) :
  history_file w1 = history_file w2 ->
  fst (update_history ts s w1) = fst (update_history ts s w2)
  /\ history_file (snd (update_history ts s w1))
     = history_file (snd (update_history ts s w2)).
Proof.
  destruct w1 as [c1 f1], w2 as [c2 f2]. cbn [history_file]. intros ->.
  destruct f2 as [[|[|r] lines]|]; run_update_history;
    try destruct (existsb _ _); destruct s; split; reflexivity.
Qed.

Lemma zip_detailed_columns (df : list comment_row) (labels : list string)
    (scores : list Q) (languages : list lang) (m : gmap string string) :
  List.length labels = List.length df ->
  List.length scores = List.length df ->
  List.length languages = List.length df ->
  let rows := zip_detailed df labels scores languages m in
  List.map d_comment rows = df
  /\ List.map d_label rows = labels
  /\ List.map d_score rows = scores
  /\ List.map d_language rows = languages
  /\ List.map d_platform rows
     = List.map (fun c => attribute_platform m (post_id c)) df.
Proof.
  revert labels scores languages.
  induction df as [|c df IH]; intros [|l labels] [|s scores] [|g languages];
    simpl; try done.
  intros Hl Hs Hg.
  destruct (IH labels scores languages) as [H1 [H2 [H3 [H4 H5]]]]; try lia.
  by rewrite H1, H2, H3, H4, H5.
Qed.

Ltac run_pipeline :=
  unfold mbind, st_bind, mret, st_ret, say, say_line, lift, print, st_get,
    st_of_outcome, check_column, write_detailed, write_summary, st_raise;
  cbn [comments_file organic_posts detailed_file summary_file base console
       history_file fst snd].

(** X6. Without the comment table, or with a table of no rows, the run
    prints its first line and one more, returns, and leaves every file as it
    was: nothing is written, the log is not touched, the model is not
    loaded. *)
Theorem run_full_pipeline_no_input
    (load_model : outcome (list pystr -> outcome (list raw_result)))
    (lower : pystr -> pystr) (now : string) (fs : files) :
  comments_file fs = None \/ comments_file fs = Some [] ->
  exists line,
    run_full_pipeline load_model lower now fs
    = (Return tt,
       mkFiles (comments_file fs) (organic_posts fs) (detailed_file fs)
         (summary_file fs)
         (mkWorld (console (base fs)
                   ++ [of_ascii "--- Starting AI Sentiment Pipeline ---"; line])
            (history_file (base fs)))).
Proof.
  destruct fs as [cf op df sf w]. cbn [comments_file]. intros [-> | ->];
    eexists; unfold run_full_pipeline; run_pipeline;
    rewrite <- app_assoc; reflexivity.
Qed.

Lemma run_full_pipeline_no_input_witness :
  exists line,
    run_full_pipeline (Raise (Exn "OSError" [])) lower_basic_latin
      "2024-01-01 10:00" (mkFiles None (fun _ => None) None None logged_world)
    = (Return tt,
       mkFiles None (fun _ => None) None None
         (mkWorld [of_ascii "--- Starting AI Sentiment Pipeline ---"; line]
            (history_file logged_world))).
Proof.
  apply (run_full_pipeline_no_input _ _ _
           (mkFiles None (fun _ => None) None None logged_world)).
  by left.
Defined.

Lemma run_full_pipeline_run
    (load_model : outcome (list pystr -> outcome (list raw_result)))
    (lower : pystr -> pystr) (now : string) (fs : files)
    (df : list comment_row)
    (sentiment_pipe : list pystr -> outcome (list raw_result))
    (results : list raw_result) :
  comments_file fs = Some df -> df <> [] ->
  load_model = Return sentiment_pipe ->
  sentiment_pipe (List.map (fun c => rendering_of (comment_text c)) df)
  = Return results ->
  List.length results = List.length df ->
  let rows :=
    zip_detailed df (normalized_labels results) (rounded_scores results)
      (List.map (fun v => classify lower (rendering_of v))
         (List.map comment_text df))
      (build_post_to_platform (organic_posts fs)) in
  let summary_data := summary_data_of (List.map classified_of rows) in
  exists w out,
    history_file w = history_file (base fs)
    /\ run_full_pipeline load_model lower now fs
       = (fst (update_history now summary_data w),
          mkFiles (Some df) (organic_posts fs) (Some rows) (Some summary_data)
            (mkWorld out
               (history_file (snd (update_history now summary_data w))))).
Proof.
  destruct fs as [cf op dt sf w]. cbn [comments_file organic_posts base].
  intros -> Hne Hload Hpipe Hlen. cbv zeta.
  set (rows := zip_detailed _ _ _ _ _).
  set (summary_data := summary_data_of _).
  destruct df as [|c df]; [done |].
  unfold run_full_pipeline. run_pipeline.
  rewrite Hload, Hpipe.
  unfold normalized_labels at 1, rounded_scores at 1.
  rewrite !List.length_map, Hlen, Nat.eqb_refl.
  run_pipeline. rewrite apply_detect_language_run. run_pipeline.
  fold rows. fold summary_data.
  match goal with |- context [update_history now summary_data ?w0] =>
    exists w0; destruct (update_history now summary_data w0) as [[[] | e] [out f]]
  end; eexists; cbn [fst snd base comments_file organic_posts detailed_file
                     summary_file history_file console];
    (split; [reflexivity |]); reflexivity.
Qed.

(** The log is an empty file: reading it fails, after the first message. *)
Lemma update_history_empty_file (ts : string) (s : list PlatformSummary)
    (w : world) :
  history_file w = Some [] ->
  exists e, update_history ts s w
            = (Raise e, mkWorld (console w ++ [updating_line]) (Some [])).
Proof.
  destruct w as [out file]. cbn [history_file]. intros ->.
  eexists. reflexivity.
Qed.

(** X7. With a table of n > 0 comments, a model that loads and returns n
    results, and a log in order, the run returns normally. It writes the
    detailed table, which is the input table, row for row and in its order,
    with the normalised label, the rounded score, the platform, one of the
    five names, and the language of each comment; it writes the summary of
    that table, whose comment counts add up to n and which has at most five
    entries; and the log gains the rows of this summary when its minute is
    new, and nothing otherwise. *)
Theorem run_full_pipeline_success
    (load_model : outcome (list pystr -> outcome (list raw_result)))
    (lower : pystr -> pystr) (now : string) (fs : files)
    (df : list comment_row)
    (sentiment_pipe : list pystr -> outcome (list raw_result))
    (results : list raw_result) :
  comments_file fs = Some df -> df <> [] ->
  load_model = Return sentiment_pipe ->
  sentiment_pipe (List.map (fun c => rendering_of (comment_text c)) df)
  = Return results ->
  List.length results = List.length df ->
  proper_log (history_file (base fs)) ->
  exists rows summary_data fs',
    run_full_pipeline load_model lower now fs = (Return tt, fs')
    /\ comments_file fs' = Some df
    /\ detailed_file fs' = Some rows
    /\ summary_file fs' = Some summary_data
    /\ List.map d_comment rows = df
    /\ List.map d_label rows = normalized_labels results
    /\ List.map d_score rows = rounded_scores results
    /\ List.map d_language rows
       = List.map (fun c => classify lower (rendering_of (comment_text c))) df
    /\ Forall (fun r => In (d_platform r) platform_names) rows
    /\ summary_data = summary_data_of (List.map classified_of rows)
    /\ sum_list (List.map total_comments summary_data) = List.length df
    /\ (List.length summary_data <= 5)%nat
    /\ proper_log (history_file (base fs'))
    /\ log_records (history_file (base fs'))
       = log_records (history_file (base fs))
         ++ (if existsb (String.eqb now)
                  (List.map hr_timestamp (log_records (history_file (base fs))))
             then [] else history_rows_of now summary_data).
Proof.
  intros Hc Hne Hload Hpipe Hlen Hp.
  destruct (run_full_pipeline_run load_model lower now fs df sentiment_pipe
              results Hc Hne Hload Hpipe Hlen) as [w [out [Hw Hrun]]].
  set (languages := List.map (fun v => classify lower (rendering_of v))
                      (List.map comment_text df)) in *.
  set (rows := zip_detailed df (normalized_labels results)
                 (rounded_scores results) languages
                 (build_post_to_platform (organic_posts fs))) in *.
  set (summary_data := summary_data_of (List.map classified_of rows)) in *.
  destruct (zip_detailed_columns df (normalized_labels results)
              (rounded_scores results) languages
              (build_post_to_platform (organic_posts fs)))
    as [H1 [H2 [H3 [H4 H5]]]].
  { unfold normalized_labels. by rewrite List.length_map. }
  { unfold rounded_scores. by rewrite List.length_map. }
  { unfold languages. by rewrite !List.length_map. }
  fold rows in H1, H2, H3, H4, H5.
  assert (Hnames : Forall (fun r => In (d_platform r) platform_names) rows).
  { apply List.Forall_forall. intros r Hr.
    assert (Hin : In (d_platform r) (List.map d_platform rows)) by (by apply in_map).
    rewrite H5 in Hin. apply in_map_iff in Hin as [c [<- _]].
    apply attribute_platform_names. }
  rewrite <- Hw in Hp.
  destruct (update_history_records now summary_data w Hp) as [Hr [Hp' Hrec]].
  rewrite Hr in Hrun. rewrite Hw in Hrec.
  exists rows, summary_data. eexists. split; [exact Hrun |].
  cbn [comments_file detailed_file summary_file base history_file].
  repeat split; try done.
  - rewrite H4. unfold languages. by rewrite List.map_map.
  - unfold summary_data. rewrite summary_total_comments.
    by rewrite List.length_map, <- H1, List.length_map.
  - apply summary_at_most_five. intros r Hr'.
    apply in_map_iff in Hr' as [d [<- Hd]]. simpl.
    by apply (proj1 (List.Forall_forall _ _) Hnames).
Qed.

Lemma run_full_pipeline_success_witness :
  exists rows summary_data fs',
    run_full_pipeline (Return sample_model) lower_basic_latin "2024-01-01 10:00"
      sample_files = (Return tt, fs')
    /\ detailed_file fs' = Some rows
    /\ summary_file fs' = Some summary_data
    /\ List.map d_comment rows = sample_comments
    /\ List.map d_language rows = [ hinglish; en ]
    /\ log_records (history_file (base fs'))
       = history_rows_of "2024-01-01 10:00" summary_data.
Proof.
  destruct (run_full_pipeline_success (Return sample_model) lower_basic_latin
              "2024-01-01 10:00" sample_files sample_comments sample_model
              (List.map (fun _ => mkRaw "LABEL_2" (9 # 10)) sample_comments)
              eq_refl ltac:(discriminate) eq_refl eq_refl eq_refl I)
    as (rows & summary_data & fs' & Hrun & _ & Hd & Hs & H1 & _ & _ & H4 & _
        & _ & _ & _ & _ & Hlog).
  exists rows, summary_data, fs'.
  split; [exact Hrun |]. split; [exact Hd |]. split; [exact Hs |].
  split; [exact H1 |]. split; [exact H4 |]. exact Hlog.
Defined.

(** X8. When the model cannot be loaded, fails on the texts, or returns a
    list of another length than the table, the run raises and no file has
    been written: the detailed table, the summary and the log are as they
    were. *)
Theorem run_full_pipeline_model_failure
    (load_model : outcome (list pystr -> outcome (list raw_result)))
    (lower : pystr -> pystr) (now : string) (fs : files)
    (df : list comment_row) :
  comments_file fs = Some df -> df <> [] ->
  (exists e, load_model = Raise e)
  \/ (exists sentiment_pipe,
        load_model = Return sentiment_pipe
        /\ ((exists e,
               sentiment_pipe (List.map (fun c => rendering_of (comment_text c)) df)
               = Raise e)
            \/ (exists results,
                  sentiment_pipe (List.map (fun c => rendering_of (comment_text c)) df)
                  = Return results
                  /\ List.length results <> List.length df))) ->
  exists e out,
    run_full_pipeline load_model lower now fs
    = (Raise e,
       mkFiles (comments_file fs) (organic_posts fs) (detailed_file fs)
         (summary_file fs) (mkWorld out (history_file (base fs)))).
Proof.
  destruct fs as [cf op dt sf w]. cbn [comments_file organic_posts base].
  intros -> Hne Hfail. destruct df as [|c df]; [done |].
  unfold run_full_pipeline. run_pipeline.
  destruct Hfail as [[e ->] | [pipe [-> [[e ->] | [results [-> Hlen]]]]]].
  - eexists _, _. reflexivity.
  - eexists _, _. reflexivity.
  - unfold normalized_labels at 1. rewrite List.length_map.
    apply Nat.eqb_neq in Hlen. rewrite Hlen. eexists _, _. reflexivity.
Qed.

Lemma run_full_pipeline_model_failure_witness :
  exists e out,
    run_full_pipeline (Return (fun _ => Return [])) lower_basic_latin
      "2024-01-01 10:00" sample_files
    = (Raise e, mkFiles (Some sample_comments) sample_listing None None
                  (mkWorld out None)).
Proof.
  apply (run_full_pipeline_model_failure (Return (fun _ => Return []))
           lower_basic_latin "2024-01-01 10:00" sample_files sample_comments);
    [reflexivity | discriminate |].
  right. eexists. split; [reflexivity |]. right.
  exists []. split; [reflexivity | discriminate].
Defined.

(** X9. The summary and the detailed table are written before the log is
    read: when the file of the log exists and is empty, the run raises out
    of [update_history], with both outputs of this run already on disk and
    the empty file still empty. *)
Theorem run_full_pipeline_empty_log
    (load_model : outcome (list pystr -> outcome (list raw_result)))
    (lower : pystr -> pystr) (now : string) (fs : files)
    (df : list comment_row)
    (sentiment_pipe : list pystr -> outcome (list raw_result))
    (results : list raw_result) :
  comments_file fs = Some df -> df <> [] ->
  load_model = Return sentiment_pipe ->
  sentiment_pipe (List.map (fun c => rendering_of (comment_text c)) df)
  = Return results ->
  List.length results = List.length df ->
  history_file (base fs) = Some [] ->
  exists e rows fs',
    run_full_pipeline load_model lower now fs = (Raise e, fs')
    /\ exn_kind e = "EmptyDataError"%string
    /\ detailed_file fs' = Some rows
    /\ List.map d_comment rows = df
    /\ summary_file fs' = Some (summary_data_of (List.map classified_of rows))
    /\ history_file (base fs') = Some [].
Proof.
  intros Hc Hne Hload Hpipe Hlen Hfile.
  destruct (run_full_pipeline_run load_model lower now fs df sentiment_pipe
              results Hc Hne Hload Hpipe Hlen) as [w [out [Hw Hrun]]].
  rewrite Hfile in Hw.
  destruct (update_history_empty_file now
              (summary_data_of
                 (List.map classified_of
                    (zip_detailed df (normalized_labels results)
                       (rounded_scores results)
                       (List.map (fun v => classify lower (rendering_of v))
                          (List.map comment_text df))
                       (build_post_to_platform (organic_posts fs))))) w Hw)
    as [e He].
  assert (Hk : exn_kind e = "EmptyDataError"%string).
  { destruct w as [o f]. cbn [history_file] in Hw. subst f.
    vm_compute in He. by injection He as <-. }
  rewrite He in Hrun. cbn [fst snd history_file] in Hrun.
  eexists e, _, _. split; [exact Hrun |].
  cbn [detailed_file summary_file base history_file].
  repeat split; try done.
  apply zip_detailed_columns.
  - unfold normalized_labels. by rewrite List.length_map.
  - unfold rounded_scores. by rewrite List.length_map.
  - by rewrite !List.length_map.
Qed.

Lemma run_full_pipeline_empty_log_witness :
  exists e rows fs',
    run_full_pipeline (Return sample_model) lower_basic_latin "2024-01-01 10:00"
      sample_files_empty_log = (Raise e, fs')
    /\ detailed_file fs' = Some rows
    /\ List.map d_comment rows = sample_comments.
Proof.
  destruct (run_full_pipeline_empty_log (Return sample_model) lower_basic_latin
              "2024-01-01 10:00" sample_files_empty_log sample_comments
              sample_model
              (List.map (fun _ => mkRaw "LABEL_2" (9 # 10)) sample_comments)
              eq_refl ltac:(discriminate) eq_refl eq_refl eq_refl eq_refl)
    as (e & rows & fs' & Hrun & _ & Hd & Hc & _).
  exists e, rows, fs'.
  split; [exact Hrun |]. split; [exact Hd | exact Hc].
Defined.

(** ** What the cleaning removes *)

Local Open Scope N_scope.

Lemma match_list_marker_dot (s : pystr) (n : nat) :
  match_list_marker s = Some n -> In 0x2E s.
Proof.
  unfold match_list_marker.
  destruct (digit_run s) as [|k]; [discriminate |].
  destruct (nth_error s (S k)) as [c |] eqn:E; [| discriminate].
  destruct (N.eqb_spec c 0x2E) as [-> | _]; [| discriminate].
  intros _. by apply nth_error_In in E.
Qed.

Lemma match_literals_hyphen (s : pystr) (n : nat) :
  match_literals emoji_literals s = Some n -> In 0x2D s.
Proof.
  unfold emoji_literals. cbn [match_literals].
  repeat match goal with
         | |- context [startswith s ?lit] =>
             let E := fresh "E" in
             destruct (startswith s lit) eqn:E;
             [apply startswith_spec in E as [rest ->]; intros _; simpl; auto
             | clear E]
         end.
  discriminate.
Qed.

Lemma emoji_pattern_none (s : pystr) :
  ~ In 0x2E s -> ~ In 0x2D s -> emoji_pattern s = None.
Proof.
  intros Hdot Hhyp. unfold emoji_pattern.
  destruct (match_list_marker s) as [n |] eqn:E1;
    [by apply match_list_marker_dot in E1 |].
  destruct (match_literals emoji_literals s) as [n |] eqn:E2; [| done].
  by apply match_literals_hyphen in E2.
Qed.

Lemma re_sub_aux_length (pattern : pystr -> option nat) (skip : nat) (s : pystr) :
  (List.length (re_sub_aux pattern skip s) <= List.length s)%nat.
Proof.
  revert skip. induction s as [|c s IH]; intros skip; simpl; [lia |].
  destruct skip as [|k]; [| specialize (IH k); lia].
  destruct (pattern (c :: s)) as [[|k] |]; simpl.
  - specialize (IH O). lia.
  - specialize (IH k). lia.
  - specialize (IH O). lia.
Qed.

(** X10. The cleaning removes nothing from a text that holds neither a full
    stop nor a hyphen: every alternative of the pattern needs one of the
    two. Emoji are therefore kept, and count towards the length that is
    compared with 3. No text grows by the cleaning. *)
Theorem cleaning_keeps_text (s : pystr) :
  (List.length (re_sub emoji_pattern s) <= List.length s)%nat
  /\ (~ In 0x2E s -> ~ In 0x2D s -> re_sub emoji_pattern s = s).
Proof.
  split; [apply re_sub_aux_length |].
  unfold re_sub. induction s as [|c s IH]; intros Hdot Hhyp; [done |].
  cbn [re_sub_aux]. rewrite (emoji_pattern_none (c :: s) Hdot Hhyp).
  rewrite IH; [done | |]; intros ?; [apply Hdot | apply Hhyp]; by right.
Qed.

Lemma cleaning_keeps_text_witness :
  re_sub emoji_pattern text_three_emoji = text_three_emoji
  /\ List.length (clean_text_of text_three_emoji) = 3%nat.
Proof.
  assert (H : re_sub emoji_pattern text_three_emoji = text_three_emoji).
  { apply (proj2 (cleaning_keeps_text text_three_emoji)); simpl;
      intros [H | [H | [H | []]]]; discriminate H. }
  split; [exact H | reflexivity].
Defined.

Lemma digit_run_app (ds rest : pystr) :
  forallb is_ascii_digit ds = true ->
  digit_run (ds ++ 0x2E :: rest) = List.length ds.
Proof.
  induction ds as [|d ds IH]; simpl; [done |].
  destruct (is_ascii_digit d); simpl; [| discriminate].
  intros H. by rewrite IH.
Qed.

Lemma re_sub_aux_skip (pattern : pystr -> option nat) (a rest : pystr) :
  re_sub_aux pattern (List.length a) (a ++ rest) = re_sub_aux pattern O rest.
Proof.
  induction a as [|c a IH]; simpl; [by destruct rest |]. exact IH.
Qed.

(** X11. A run of digits followed by a full stop is removed wherever the
    scan meets it, the full stop included, and the scan goes on behind it:
    a list marker at the head of a comment goes, and so does the integer
    part of a decimal number. *)
Theorem cleaning_removes_marker (ds rest : pystr) :
  ds <> [] -> forallb is_ascii_digit ds = true ->
  re_sub emoji_pattern (ds ++ 0x2E :: rest) = re_sub emoji_pattern rest.
Proof.
  intros Hne Hds. unfold re_sub.
  destruct ds as [|d ds]; [done |].
  cbn [app re_sub_aux].
  assert (Hm : emoji_pattern (d :: ds ++ 0x2E :: rest)
               = Some (S (S (List.length ds)))).
  { unfold emoji_pattern, match_list_marker.
    change (d :: ds ++ 0x2E :: rest) with ((d :: ds) ++ 0x2E :: rest).
    rewrite (digit_run_app (d :: ds) rest Hds).
    cbn [List.length app nth_error].
    rewrite nth_error_app2 by lia. rewrite Nat.sub_diag. reflexivity. }
  rewrite Hm.
  change (ds ++ 0x2E :: rest) with (ds ++ [0x2E] ++ rest).
  rewrite app_assoc.
  replace (S (List.length ds)) with (List.length (ds ++ [0x2E]))
    by (rewrite List.length_app; simpl; lia).
  apply re_sub_aux_skip.
Qed.

Lemma cleaning_removes_marker_witness :
  re_sub emoji_pattern text_numbered = of_ascii "Great quality"
  /\ re_sub emoji_pattern (of_ascii "22.5") = of_ascii "5".
Proof.
  split.
  - change text_numbered with (of_ascii "12" ++ 0x2E :: of_ascii "Great quality").
    rewrite (cleaning_removes_marker (of_ascii "12") (of_ascii "Great quality"));
      [reflexivity | discriminate | reflexivity].
  - change (of_ascii "22.5") with (of_ascii "22" ++ 0x2E :: of_ascii "5").
    rewrite (cleaning_removes_marker (of_ascii "22") (of_ascii "5"));
      [reflexivity | discriminate | reflexivity].
Defined.

Local Close Scope N_scope.

(** ** Whitespace around a comment *)

Lemma lstrip_app_blank (pad s : pystr) :
  forallb py_isspace pad = true -> lstrip (pad ++ s) = lstrip s.
Proof.
  induction pad as [|c pad IH]; simpl; [done |].
  destruct (py_isspace c); simpl; [exact IH | discriminate].
Qed.

Lemma lstrip_nil_blank (s : pystr) :
  lstrip s = [] -> forallb py_isspace s = true.
Proof.
  induction s as [|c s IH]; simpl; [done |].
  destruct (py_isspace c); simpl; [exact IH | discriminate].
Qed.

Lemma lstrip_app_ink (s t : pystr) :
  lstrip s <> [] -> lstrip (s ++ t) = lstrip s ++ t.
Proof.
  induction s as [|c s IH]; simpl; [done |].
  destruct (py_isspace c); [exact IH | done].
Qed.

Lemma rstrip_app_blank (s pad : pystr) :
  forallb py_isspace pad = true -> rstrip (s ++ pad) = rstrip s.
Proof.
  intros Hpad. unfold rstrip. rewrite rev_app_distr.
  rewrite lstrip_app_blank; [done |]. by rewrite forallb_rev.
Qed.

Lemma strip_padding (pad1 pad2 s : pystr) :
  forallb py_isspace pad1 = true -> forallb py_isspace pad2 = true ->
  strip (pad1 ++ s ++ pad2) = strip s.
Proof.
  intros H1 H2. unfold strip. rewrite (lstrip_app_blank pad1 _ H1).
  destruct (lstrip s) as [|c l] eqn:E.
  - apply lstrip_nil_blank in E.
    rewrite lstrip_blank; [done |]. by rewrite forallb_app, E, H2.
  - rewrite lstrip_app_ink by (by rewrite E). rewrite E.
    by apply rstrip_app_blank.
Qed.

(** X12. Whitespace before and after a comment, of any of the kinds
    [str.strip] removes, does not change the language it is given. *)
Theorem detect_language_padding (lower : pystr -> pystr)
    (pad1 pad2 raw : pystr) (w : world) :
  forallb py_isspace pad1 = true -> forallb py_isspace pad2 = true ->
  detect_language lower (PStr (pad1 ++ raw ++ pad2)) w
  = detect_language lower (PStr raw) w.
Proof.
  intros H1 H2. rewrite !detect_language_classify.
  unfold classify, clean_text_of, text_str_of.
  by rewrite (strip_padding pad1 pad2 raw H1 H2).
Qed.

Lemma detect_language_padding_witness :
  detect_language lower_basic_latin
    (PStr (of_ascii "  " ++ text_mast ++ [0x0A%N])) empty_world
  = detect_language lower_basic_latin (PStr text_mast) empty_world.
Proof.
  apply (detect_language_padding lower_basic_latin (of_ascii "  ") [0x0A%N]);
    reflexivity.
Defined.

(** ** Lexicon words and tokens *)

Lemma hinglish_words_NoDup : NoDup hinglish_words.
Proof. apply (bool_decide_unpack _). by vm_compute. Qed.

Lemma whole_word_no_space (w t : pystr) :
  ~ In SPACE t -> whole_word_occurrence w t <-> w = t.
Proof.
  intros Hsp. split.
  - intros [pre [post [-> [Hpre Hpost]]]].
    assert (pre = []) as ->.
    { destruct Hpre as [-> | Hl]; [done |]. exfalso. apply Hsp.
      apply last_Some_elem_of, list_elem_of_In in Hl.
      apply in_or_app. by left. }
    assert (post = []) as ->.
    { destruct Hpost as [-> | Hh]; [done |]. exfalso. apply Hsp.
      destruct post as [|c post]; [done |]. simpl in Hh. injection Hh as ->.
      apply in_or_app. right. apply in_or_app. right. by left. }
    by rewrite app_nil_r.
  - intros ->. exists [], []. rewrite app_nil_r. auto.
Qed.

Lemma filter_single (f : pystr -> bool) (t : pystr) (ws : list pystr) :
  NoDup ws -> (forall w, f w = true <-> w = t) ->
  List.length (List.filter f ws) = if bool_decide (t ∈ ws) then 1 else 0.
Proof.
  intros Hnd Hf. induction ws as [|w ws IH]; [done |].
  apply NoDup_cons in Hnd as [Hw Hnd]. simpl.
  destruct (f w) eqn:E.
  - apply Hf in E as ->. rewrite bool_decide_eq_true_2 by left.
    simpl. rewrite (IH Hnd). by rewrite bool_decide_eq_false_2.
  - rewrite (IH Hnd).
    assert (Hext : bool_decide (t ∈ ws) = bool_decide (t ∈ w :: ws)).
    { apply bool_decide_ext. split; [by right |].
      intros Hin. apply elem_of_cons in Hin as [-> | Hin]; [| done].
      assert (f w = true) by (by apply Hf). congruence. }
    by rewrite Hext.
Qed.

(** X13. In a lower-cased text without a space, a lexicon word is found
    only when it is the whole text: a lexicon word at the head or inside of
    a longer word, or followed by punctuation, is no hit. Such a text counts
    one hit if it is a lexicon word and none otherwise. *)
Theorem single_word_hits (t : pystr) :
  ~ In SPACE t ->
  (forall w, word_hit t w = true <-> w = t)
  /\ hinglish_count t = if bool_decide (t ∈ hinglish_words) then 1 else 0.
Proof.
  intros Hsp.
  assert (H : forall w, word_hit t w = true <-> w = t).
  { intros w. rewrite word_hit_spec. by apply whole_word_no_space. }
  split; [exact H |].
  unfold hinglish_count. apply filter_single; [apply hinglish_words_NoDup | exact H].
Qed.

Lemma single_word_hits_witness :
  word_hit text_haircut (of_ascii "hai") = false
  /\ hinglish_count text_haircut = 0.
Proof.
  assert (Hsp : ~ In SPACE text_haircut).
  { vm_compute. intros H. repeat destruct H as [H | H]; try discriminate H.
    exact H. }
  destruct (single_word_hits text_haircut Hsp) as [Hw Hc].
  split.
  - destruct (word_hit text_haircut (of_ascii "hai")) eqn:E; [| done].
    apply Hw in E. discriminate E.
  - rewrite Hc. reflexivity.
Defined.

Lemma split_aux_space (cur a rest : pystr) (c : N) :
  py_isspace c = true ->
  split_aux cur (a ++ c :: rest) = split_aux cur a ++ split_aux [] rest.
Proof.
  intros Hc. revert cur. induction a as [|x a IH]; intros cur; simpl.
  - rewrite Hc. by destruct cur.
  - destruct (py_isspace x); [| apply IH].
    destruct cur; [apply IH |]. simpl. by rewrite IH.
Qed.

Lemma split_aux_ink (cur w rest : pystr) :
  forallb (fun c => negb (py_isspace c)) w = true ->
  split_aux cur (w ++ rest) = split_aux (rev w ++ cur) rest.
Proof.
  revert cur. induction w as [|x w IH]; intros cur; simpl; [done |].
  destruct (py_isspace x); simpl; [discriminate |].
  intros Hw. rewrite (IH _ Hw). by rewrite <- app_assoc.
Qed.

Lemma split_ink_first (w post : pystr) :
  w <> [] -> forallb (fun c => negb (py_isspace c)) w = true ->
  post = [] \/ head post = Some SPACE ->
  In w (split_aux [] (w ++ post)).
Proof.
  intros Hne Hw Hpost. rewrite (split_aux_ink [] w post Hw), app_nil_r.
  assert (Hrev : rev w <> []).
  { intros Hr. apply Hne. by rewrite <- (rev_involutive w), Hr. }
  destruct Hpost as [-> | Hh].
  - simpl. destruct (rev w) eqn:E; [done |]. left. by rewrite <- E, rev_involutive.
  - destruct post as [|c post]; [done |]. simpl in Hh. injection Hh as ->.
    simpl. destruct (rev w) eqn:E; [done |]. left.
    by rewrite <- E, rev_involutive.
Qed.

(** A lexicon word found by the test is one of the tokens of the text. *)
Lemma whole_word_token (w t : pystr) :
  w <> [] -> forallb (fun c => negb (py_isspace c)) w = true ->
  whole_word_occurrence w t -> In w (split t).
Proof.
  intros Hne Hw [pre [post [-> [Hpre Hpost]]]]. unfold split.
  destruct Hpre as [-> | Hl].
  - simpl. by apply split_ink_first.
  - destruct pre as [|x pre _] using rev_ind; [done |].
    rewrite last_snoc in Hl. injection Hl as ->.
    rewrite <- app_assoc. simpl.
    rewrite split_aux_space by reflexivity.
    apply in_or_app. right. by apply split_ink_first.
Qed.

Lemma hinglish_words_ink :
  forallb (fun w => match w with [] => false | _ => true end
                    && forallb (fun c => negb (py_isspace c)) w)
    hinglish_words = true.
Proof. by vm_compute. Qed.

Lemma lexicon_hit_token (t w : pystr) :
  In w hinglish_words -> word_hit t w = true -> In w (split t).
Proof.
  intros Hin Hhit. pose proof hinglish_words_ink as Hall.
  rewrite forallb_forall in Hall. specialize (Hall w Hin).
  apply andb_true_iff in Hall as [Hne Hink].
  apply whole_word_token; [by destruct w | exact Hink |].
  by apply word_hit_spec.
Qed.

(** X14. Every lexicon word the classifier counts is one of the
    whitespace-separated tokens of the lower-cased text, so the count never
    exceeds the number of tokens. *)
Theorem hinglish_count_tokens (t : pystr) :
  (forall w, In w (List.filter (word_hit t) hinglish_words) -> In w (split t))
  /\ hinglish_count t <= List.length (split t).
Proof.
  assert (H : forall w, In w (List.filter (word_hit t) hinglish_words)
                        -> In w (split t)).
  { intros w Hw. apply List.filter_In in Hw as [Hin Hhit].
    by apply lexicon_hit_token. }
  split; [exact H |]. unfold hinglish_count.
  apply NoDup_incl_length; [| exact H].
  apply List.NoDup_filter, NoDup_ListNoDup, hinglish_words_NoDup.
Qed.



(** ** Health scores at the ends of the scale *)

Local Open Scope Q_scope.

Lemma class_count_all (cls : string) (labels : list string) :
  Forall (fun l => l = cls) labels -> class_count cls labels = List.length labels.
Proof.
  unfold class_count. induction 1 as [|l labels -> _ IH]; [done |].
  cbn [List.filter]. rewrite String.eqb_refl. simpl. by rewrite IH.
Qed.

Lemma class_count_none (cls : string) (labels : list string) :
  Forall (fun l => l <> cls) labels -> class_count cls labels = O.
Proof.
  unfold class_count. induction 1 as [|l labels Hl _ IH]; [done |].
  cbn [List.filter]. destruct (String.eqb_spec cls l) as [-> | _]; done.
Qed.

Lemma percentage_all (cls : string) (labels : list string) :
  labels <> [] -> Forall (fun l => l = cls) labels ->
  percentage cls labels == 100.
Proof.
  intros Hne Hall. unfold percentage. rewrite (class_count_all cls labels Hall).
  assert (Hn : ~ inject_Z (Z.of_nat (List.length labels)) == 0).
  { destruct labels; [done |]. simpl. discriminate. }
  field. exact Hn.
Qed.

Lemma percentage_none (cls : string) (labels : list string) :
  Forall (fun l => l <> cls) labels -> percentage cls labels == 0.
Proof.
  intros Hnone. unfold percentage. rewrite (class_count_none cls labels Hnone).
  simpl. unfold Qdiv. by rewrite !Qmult_0_l.
Qed.

(** X16. A group of positive comments only has health score 100, a group
    of neutral comments only 50, and a group without a positive or neutral
    comment 0: comments with a label the pipeline does not know weigh on
    the score as negative ones do. *)
Theorem health_score_extremes (p : string) (group : list classified) :
  group <> [] ->
  (Forall (fun r => c_label r = "positive"%string) group ->
   health_score (summarize p group) == 100)
  /\ (Forall (fun r => c_label r = "neutral"%string) group ->
      health_score (summarize p group) == 50)
  /\ (Forall (fun r => c_label r <> "positive"%string
                       /\ c_label r <> "neutral"%string) group ->
      health_score (summarize p group) == 0).
Proof.
  intros Hne.
  assert (Hl : List.map c_label group <> [])
    by (intros H; by apply map_eq_nil in H).
  pose proof (summarize_health_score p group) as Hh.
  split; [| split]; intros Hall; rewrite Hh.
  - assert (Hp : percentage "positive" (List.map c_label group) == 100).
    { apply percentage_all; [exact Hl |]. apply List.Forall_map.
      exact Hall. }
    assert (Hn : percentage "neutral" (List.map c_label group) == 0).
    { apply percentage_none. apply List.Forall_map.
      eapply List.Forall_impl; [| exact Hall]. simpl. intros r ->. discriminate. }
    assert (Harg : percentage "positive" (List.map c_label group)
                   + (1 # 2) * percentage "neutral" (List.map c_label group)
                   == 100) by (rewrite Hp, Hn; reflexivity).
    rewrite (py_round_comp _ _ Harg 2%nat 2%nat eq_refl). reflexivity.
  - assert (Hp : percentage "positive" (List.map c_label group) == 0).
    { apply percentage_none. apply List.Forall_map.
      eapply List.Forall_impl; [| exact Hall]. simpl. intros r ->. discriminate. }
    assert (Hn : percentage "neutral" (List.map c_label group) == 100).
    { apply percentage_all; [exact Hl |]. apply List.Forall_map.
      exact Hall. }
    assert (Harg : percentage "positive" (List.map c_label group)
                   + (1 # 2) * percentage "neutral" (List.map c_label group)
                   == 50) by (rewrite Hp, Hn; reflexivity).
    rewrite (py_round_comp _ _ Harg 2%nat 2%nat eq_refl). reflexivity.
  - assert (Hp : percentage "positive" (List.map c_label group) == 0).
    { apply percentage_none. apply List.Forall_map.
      eapply List.Forall_impl; [| exact Hall]. simpl. by intros r [? _]. }
    assert (Hn : percentage "neutral" (List.map c_label group) == 0).
    { apply percentage_none. apply List.Forall_map.
      eapply List.Forall_impl; [| exact Hall]. simpl. by intros r [_ ?]. }
    assert (Harg : percentage "positive" (List.map c_label group)
                   + (1 # 2) * percentage "neutral" (List.map c_label group)
                   == 0) by (rewrite Hp, Hn; reflexivity).
    rewrite (py_round_comp _ _ Harg 2%nat 2%nat eq_refl). reflexivity.
Qed.

Lemma health_score_extremes_witness :
  health_score (summarize "General" unknown_label_df) == 0.
Proof.
  apply (proj2 (proj2 (health_score_extremes "General" unknown_label_df
                         ltac:(discriminate)))).
  repeat constructor; discriminate.
Defined.

Local Close Scope Q_scope.

(** ** The simulator: the comments it asks for *)

Lemma split_on_aux_join (sep : N) (cur s : pystr) :
  join sep (split_on_aux sep cur s) = rev cur ++ s.
Proof.
  revert cur. induction s as [|c s IH]; intros cur; simpl.
  - by rewrite app_nil_r.
  - destruct (N.eqb_spec c sep) as [-> | _].
    + specialize (IH []).
      destruct (split_on_aux sep [] s) as [|x l] eqn:E.
      * destruct s; simpl in E; [discriminate |].
        by destruct (_ =? _)%N in E.
      * change (join sep (rev cur :: x :: l))
          with (rev cur ++ sep :: join sep (x :: l)).
        by rewrite IH.
    + rewrite IH. simpl. by rewrite <- app_assoc.
Qed.

Lemma split_on_aux_length (sep : N) (cur s : pystr) :
  List.length (split_on_aux sep cur s) = S (count_cp sep s).
Proof.
  unfold count_cp. revert cur. induction s as [|c s IH]; intros cur; simpl; [done |].
  rewrite (N.eqb_sym sep c).
  destruct (c =? sep)%N; simpl; by rewrite IH.
Qed.

Lemma split_on_aux_no_sep (sep : N) (cur s : pystr) :
  ~ In sep cur -> Forall (fun t => ~ In sep t) (split_on_aux sep cur s).
Proof.
  revert cur. induction s as [|c s IH]; intros cur Hcur; simpl.
  - constructor; [| constructor]. by rewrite <- in_rev.
  - destruct (N.eqb_spec c sep) as [-> | Hne].
    + constructor; [by rewrite <- in_rev | apply IH; by intros []].
    + apply IH. intros [-> | Hin]; done.
Qed.

(** X17. [generate_ai_comments] always returns at least one text, whatever
    count was asked for, and raises nothing. When the chat model answers,
    the texts are the lines of the stripped answer: joined by newlines they
    give it back, none of them holds a newline, and there is one more of
    them than the answer has newlines, blank lines included. When the model
    fails, the texts are the three fixed comments and one warning is
    printed. Files and random source are not touched. *)
Theorem generate_ai_comments_lines (chat : string -> outcome pystr)
    (scenario : string) (count : Z) (s : sim) :
  exists texts out,
    generate_ai_comments chat scenario count s
    = (Return texts, mkSim (tables s) out (entropy s) (draws s))
    /\ texts <> []
    /\ (forall content,
           chat (request_content scenario count) = Return content ->
           out = sim_console s
           /\ join NEWLINE texts = strip content
           /\ Forall (fun t => ~ In NEWLINE t) texts
           /\ List.length texts = S (count_cp NEWLINE (strip content)))
    /\ (forall e,
           chat (request_content scenario count) = Raise e ->
           texts = fallback_comments
           /\ exists line, out = sim_console s ++ [line]).
Proof.
  unfold generate_ai_comments.
  destruct (chat (request_content scenario count)) as [content | e].
  - exists (split_on NEWLINE (strip content)), (sim_console s).
    split; [by destruct s |]. split.
    + intros H. pose proof (split_on_aux_length NEWLINE [] (strip content)) as Hl.
      unfold split_on in H. by rewrite H in Hl.
    + split; [| discriminate]. intros ? [= <-].
      split; [done |]. split; [apply (split_on_aux_join NEWLINE []) |].
      split; [unfold split_on; apply split_on_aux_no_sep; intros []
             | apply split_on_aux_length].
  - eexists fallback_comments, _. split; [reflexivity |].
    split; [discriminate |]. split; [discriminate |].
    intros ? [= <-]. split; [done |]. by eexists.
Qed.

Lemma generate_ai_comments_lines_witness :
  (exists s', generate_ai_comments sample_chat "viral" 10 sample_sim
              = (Return [ of_ascii "Love this!"; []; of_ascii "Finally!" ], s'))
  /\ (exists s', generate_ai_comments failing_chat "viral" 10 sample_sim
                 = (Return fallback_comments, s')).
Proof.
  split.
  - destruct (generate_ai_comments_lines sample_chat "viral" 10 sample_sim)
      as (texts & out & Hrun & _ & Hok & _).
    destruct (Hok sample_reply eq_refl) as (_ & Hjoin & _).
    eexists. reflexivity.
  - destruct (generate_ai_comments_lines failing_chat "viral" 10 sample_sim)
      as (texts & out & Hrun & _ & _ & Hfail).
    destruct (Hfail _ eq_refl) as [-> _]. eexists. exact Hrun.
Defined.

(** ** The simulator: counters *)

Local Open Scope Z_scope.

Lemma randint_run (lo hi : Z) (s : sim) :
  lo <= hi ->
  randint lo hi s
  = (Return (lo + entropy s (draws s) mod (hi - lo + 1)),
     mkSim (tables s) (sim_console s) (entropy s) (S (draws s)))
  /\ lo <= lo + entropy s (draws s) mod (hi - lo + 1) <= hi.
Proof.
  intros Hle. unfold randint.
  destruct (Z.ltb_spec hi lo) as [Hlt | _]; [lia |].
  split; [reflexivity |].
  pose proof (Z.mod_pos_bound (entropy s (draws s)) (hi - lo + 1)). lia.
Qed.

Lemma randint_empty (lo hi : Z) (s : sim) :
  hi < lo -> exists e, randint lo hi s = (Raise e, s)
                       /\ exn_kind e = "ValueError"%string.
Proof.
  intros Hlt. unfold randint. apply Z.ltb_lt in Hlt. rewrite Hlt.
  by eexists.
Qed.

Ltac step_randint lo hi :=
  match goal with
  | |- context [randint lo hi ?s] =>
      let Hr := fresh "Hr" in
      let Hb := fresh "Hb" in
      destruct (randint_run lo hi s ltac:(lia)) as [Hr Hb];
      rewrite Hr; clear Hr;
      cbn [tables sim_console entropy draws] in *
  end.

Ltac run_sim :=
  unfold update_csv, mbind, st_bind, mret, st_ret, st_get, st_put, key_error,
    st_raise;
  cbn [tables sim_console entropy draws].




Local Open Scope Q_scope.



Local Close Scope Q_scope.


(** X20. A table of posts or of campaigns that has no row makes its update
    raise [ValueError], the range of rows to draw from being empty; nothing
    is written and no number is drawn. A file that does not exist is passed
    over: the update returns [False] and changes nothing. *)
Theorem update_csv_no_rows (scenario file_name : string) (s : sim) :
  (tables s !! file_name = Some (Organic []) ->
   exists e, update_csv file_name (organic_logic scenario) s = (Raise e, s)
             /\ exn_kind e = "ValueError"%string)
  /\ (tables s !! file_name = Some (Ads []) ->
      exists e, update_csv file_name (ads_logic scenario) s = (Raise e, s)
                /\ exn_kind e = "ValueError"%string)
  /\ (tables s !! file_name = None ->
      forall logic_func, update_csv file_name logic_func s = (Return false, s)).
Proof.
  split; [| split]; intros Hf.
  - run_sim. rewrite Hf. by eexists.
  - run_sim. rewrite Hf. by eexists.
  - intros logic_func. run_sim. by rewrite Hf.
Qed.

Lemma update_csv_no_rows_witness :
  (exists e, update_csv "twitter_organic_posts.csv" (organic_logic "normal")
               sample_sim_empty_posts = (Raise e, sample_sim_empty_posts))
  /\ update_csv "linkedin_organic_posts.csv" (organic_logic "normal") sample_sim
     = (Return false, sample_sim).
Proof.
  split.
  - destruct (proj1 (update_csv_no_rows "normal" "twitter_organic_posts.csv"
                       sample_sim_empty_posts) eq_refl) as [e [He _]].
    by exists e.
  - apply (proj2 (proj2 (update_csv_no_rows "normal" "linkedin_organic_posts.csv"
                           sample_sim))). reflexivity.
Defined.

(** ** The simulator: a whole cycle *)

Lemma keeps_tables_ret {A} (a : A) : keeps_tables (mret a : st sim A).
Proof. by intros s. Qed.

Lemma keeps_tables_raise {A} (e : exn) : keeps_tables (st_raise e : st sim A).
Proof. by intros s. Qed.

Lemma keeps_tables_randint (lo hi : Z) : keeps_tables (randint lo hi).
Proof. intros s. unfold randint. by destruct (hi <? lo). Qed.

Lemma keeps_tables_uniform (a b : Q) : keeps_tables (uniform a b).
Proof. by intros s. Qed.

Lemma keeps_tables_print (line : pystr) : keeps_tables (sim_print line).
Proof. by intros s. Qed.

Lemma keeps_tables_bind {A B} (m : st sim A) (k : A -> st sim B) :
  keeps_tables m -> (forall a, keeps_tables (k a)) -> keeps_tables (m ≫= k).
Proof.
  intros Hm Hk s. unfold mbind, st_bind. specialize (Hm s).
  destruct (m s) as [[a | e] s1]; simpl in *; [| done].
  by rewrite (Hk a s1).
Qed.

Lemma keeps_file_bind {A B} (g : string) (m : st sim A) (k : A -> st sim B) :
  keeps_file g m -> (forall a, keeps_file g (k a)) -> keeps_file g (m ≫= k).
Proof.
  intros Hm Hk s. unfold mbind, st_bind. specialize (Hm s).
  destruct (m s) as [[a | e] s1]; simpl in *; [| done].
  by rewrite (Hk a s1).
Qed.

Lemma keeps_tables_file {A} (g : string) (m : st sim A) :
  keeps_tables m -> keeps_file g m.
Proof. intros Hm s. by rewrite Hm. Qed.

Ltac keeps :=
  repeat first
    [ apply keeps_tables_bind; [| intros ?]
    | apply keeps_tables_randint
    | apply keeps_tables_uniform
    | apply keeps_tables_ret
    | apply keeps_tables_raise
    | apply keeps_tables_print ].

Lemma organic_logic_keeps (scenario : string) (df : table) :
  keeps_tables (organic_logic scenario df).
Proof.
  unfold organic_logic, key_error. destruct df; keeps.
  destruct (String.eqb scenario "viral"); [keeps |].
  destruct (String.eqb scenario "crisis"); keeps.
Qed.

Lemma ads_logic_keeps (scenario : string) (df : table) :
  keeps_tables (ads_logic scenario df).
Proof.
  unfold ads_logic, key_error. destruct df; keeps.
  destruct (String.eqb scenario "viral"); keeps.
Qed.

Lemma update_csv_keeps_file (g file_name : string)
    (logic_func : table -> st sim table) :
  g <> file_name -> (forall df, keeps_tables (logic_func df)) ->
  keeps_file g (update_csv file_name logic_func).
Proof.
  intros Hne Hl s. run_sim.
  destruct (tables s !! file_name) as [df |]; [| done].
  specialize (Hl df s). destruct (logic_func df s) as [[df' | e] s1];
    cbn [fst snd tables] in *; [| by rewrite Hl].
  by rewrite lookup_insert_ne, Hl.
Qed.

Lemma st_for_keeps_file (g : string) (fs : list string)
    (body : string -> st sim unit) :
  (forall f, In f fs -> keeps_file g (body f)) ->
  keeps_file g (st_for fs body).
Proof.
  induction fs as [|f fs IH]; intros Hb; [by intros s |].
  cbn [st_for]. apply keeps_file_bind; [apply Hb; by left |].
  intros _. apply IH. intros f' Hf'. apply Hb. by right.
Qed.

Lemma new_rows_of_run (now : nat -> string) (k : nat) (texts : list pystr)
    (s : sim) :
  exists rows n,
    new_rows_of now k texts s
    = (Return rows, mkSim (tables s) (sim_console s) (entropy s) n)
    /\ List.map comment_text rows = List.map (fun t => PStr (strip t)) texts
    /\ List.map timestamp rows = List.map now (seq k (List.length texts))
    /\ Forall (fun r => In (post_id r) simulated_post_ids) rows.
Proof.
  revert k s. induction texts as [|text texts IH]; intros k s.
  - exists [], (draws s). split; [by destruct s |]. split; [done |].
    split; [done | constructor].
  - cbn [new_rows_of]. unfold mbind, st_bind.
    step_randint 5000 9999. step_randint 1 4. step_randint 100 999.
    match goal with |- context [new_rows_of now (S k) texts ?s3] =>
      destruct (IH (S k) s3) as (rows & n & Hrun & Htexts & Htimes & Hall)
    end.
    rewrite Hrun. cbn [tables sim_console entropy draws].
    eexists _, n. split; [reflexivity |]. split; [| split].
    + cbn [List.map comment_text]. by rewrite Htexts.
    + cbn [List.map timestamp List.length seq]. by rewrite Htimes.
    + constructor; [| exact Hall]. cbn [post_id].
      set (p := 1 + entropy s (S (draws s)) mod (4 - 1 + 1)) in *.
      assert (Hp : p = 1 \/ p = 2 \/ p = 3 \/ p = 4) by lia.
      destruct Hp as [-> | [-> | [-> | ->]]]; vm_compute; auto.
Qed.

Lemma generate_ai_comments_run (chat : string -> outcome pystr)
    (scenario : string) (count : Z) (s : sim) :
  exists texts out,
    generate_ai_comments chat scenario count s
    = (Return texts, mkSim (tables s) out (entropy s) (draws s))
    /\ texts <> []
    /\ (forall content,
           chat (request_content scenario count) = Return content ->
           texts = split_on NEWLINE (strip content))
    /\ (forall e,
           chat (request_content scenario count) = Raise e ->
           texts = fallback_comments).
Proof.
  unfold generate_ai_comments.
  destruct (chat (request_content scenario count)) as [content | e].
  - exists (split_on NEWLINE (strip content)), (sim_console s).
    split; [by destruct s |]. split.
    + intros H. pose proof (split_on_aux_length NEWLINE [] (strip content)) as Hl.
      unfold split_on in H. by rewrite H in Hl.
    + split; [by intros ? [= <-] | discriminate].
  - eexists fallback_comments, _. split; [reflexivity |].
    split; [discriminate |]. split; [discriminate | done].
Qed.

Lemma cycle_rest_keeps (scenario : string) (line : pystr) :
  keeps_file COMMENTS_FILE
    (st_for organic_files
       (fun f => update_csv f (organic_logic scenario) ;; mret tt) ;;
     st_for ads_files (fun f => update_csv f (ads_logic scenario) ;; mret tt) ;;
     sim_print line).
Proof.
  apply keeps_file_bind; [| intros _; apply keeps_file_bind].
  - apply st_for_keeps_file. intros f Hf.
    apply keeps_file_bind;
      [| intros _; apply keeps_tables_file, keeps_tables_ret].
    apply update_csv_keeps_file; [| apply organic_logic_keeps].
    intros <-. simpl in Hf. repeat destruct Hf as [Hf | Hf]; try discriminate Hf.
    exact Hf.
  - apply st_for_keeps_file. intros f Hf.
    apply keeps_file_bind;
      [| intros _; apply keeps_tables_file, keeps_tables_ret].
    apply update_csv_keeps_file; [| apply ads_logic_keeps].
    intros <-. simpl in Hf. repeat destruct Hf as [Hf | Hf]; try discriminate Hf.
    exact Hf.
  - intros _. apply keeps_tables_file, keeps_tables_print.
Qed.

(** X21. A cycle appends to the comment table one row per text it was
    given by [generate_ai_comments], at least one, the rows already there
    staying first and unchanged. Each new row has the stripped text, the
    time the clock shows when the row is made, and a post among POST_0001
    to POST_0004. The rows are in the table at the end of the cycle whether
    the later updates succeed or raise. *)
Theorem run_simulation_cycle_comments (chat : string -> outcome pystr)
    (now : nat -> string) (scenario : string) (s : sim)
    (rows : list comment_row) :
  tables s !! COMMENTS_FILE = Some (Comments rows) ->
  exists texts new_rows,
    tables (snd (run_simulation_cycle chat now scenario s)) !! COMMENTS_FILE
    = Some (Comments (rows ++ new_rows))
    /\ texts <> []
    /\ List.map comment_text new_rows = List.map (fun t => PStr (strip t)) texts
    /\ (forall content,
           chat (request_content scenario (comment_count_of scenario))
           = Return content ->
           texts = split_on NEWLINE (strip content))
    /\ (forall e,
           chat (request_content scenario (comment_count_of scenario)) = Raise e ->
           texts = fallback_comments)
    /\ List.map timestamp new_rows = List.map now (seq 0 (List.length texts))
    /\ Forall (fun r => In (post_id r) simulated_post_ids) new_rows.
Proof.
  intros Hf. unfold run_simulation_cycle.
  unfold COMMENTS_FILE in *.
  match goal with
  | |- context [update_csv _ (comment_logic _ _) ;; ?rest] =>
      pose proof (cycle_rest_keeps scenario
                    (CHECK_MARK ++ of_ascii " Simulation Complete for "
                     ++ of_ascii scenario
                     ++ of_ascii ". Triggering Dashboard Refresh...")) as Hrest;
      set (tail := rest) in *
  end.
  unfold mbind at 1 2 3, st_bind at 1 2 3, sim_print at 1.
  cbn [tables sim_console entropy draws].
  match goal with |- context [generate_ai_comments chat scenario ?c ?s0] =>
    destruct (generate_ai_comments_run chat scenario c s0)
      as (texts & out & Hgen & Hne & Hok & Hfail)
  end.
  rewrite Hgen. cbn [tables sim_console entropy draws].
  exists texts.
  unfold update_csv, comment_logic.
  unfold mbind at 1 2 3 4 5, st_bind at 1 2 3 4 5, st_get, st_put, mret, st_ret.
  cbn [tables sim_console entropy draws].
  rewrite Hf. cbv beta iota.
  match goal with |- context [new_rows_of now O texts ?s1] =>
    destruct (new_rows_of_run now O texts s1)
      as (new_rows & n & Hnew & Htexts & Htimes & Hall)
  end.
  rewrite Hnew. cbn [tables sim_console entropy draws].
  exists new_rows. split.
  - unfold keeps_file, COMMENTS_FILE in Hrest.
    match goal with |- context [tail ?s2] => rewrite (Hrest s2) end.
    cbn [tables]. apply lookup_insert_eq.
  - done.
Qed.

Lemma run_simulation_cycle_comments_witness :
  exists new_rows,
    tables (snd (run_simulation_cycle sample_chat sample_clock "viral"
                   sample_sim)) !! COMMENTS_FILE
    = Some (Comments (sample_comments ++ new_rows))
    /\ List.map comment_text new_rows
       = [ PStr (of_ascii "Love this!"); PStr []; PStr (of_ascii "Finally!") ].
Proof.
  destruct (run_simulation_cycle_comments sample_chat sample_clock
              "viral" sample_sim sample_comments eq_refl)
    as (texts & new_rows & Hrun & _ & Htexts & Hok & _).
  exists new_rows. split; [exact Hrun |].
  rewrite Htexts, (Hok sample_reply eq_refl). reflexivity.
Defined.

Lemma new_rows_of_keeps (now : nat -> string) (k : nat) (texts : list pystr) :
  keeps_tables (new_rows_of now k texts).
Proof.
  revert k. induction texts as [|text texts IH]; intros k; cbn [new_rows_of];
    keeps. apply IH.
Qed.

Lemma comment_logic_keeps (now : nat -> string) (texts : list pystr) (df : table) :
  keeps_tables (comment_logic now texts df).
Proof.
  unfold comment_logic, key_error. destruct df; keeps. apply new_rows_of_keeps.
Qed.

Lemma bind_raises {A B} (m : st sim A) (k : A -> st sim B) (s : sim) :
  (forall a s1, m s = (Return a, s1) -> exists e s', k a s1 = (Raise e, s')) ->
  exists e s', (m ≫= k) s = (Raise e, s').
Proof.
  intros Hk. unfold mbind, st_bind.
  destruct (m s) as [[a | e] s1]; [by apply Hk | by eexists _, _].
Qed.

Lemma st_for_empty_posts (scenario f : string) (fs : list string) (s : sim) :
  In f fs -> tables s !! f = Some (Organic []) ->
  exists e s',
    st_for fs (fun f => update_csv f (organic_logic scenario) ;; mret tt) s
    = (Raise e, s').
Proof.
  revert s. induction fs as [|f0 fs IH]; intros s Hin Hf; [done |].
  cbn [st_for]. apply bind_raises. intros [] s1 Hrun.
  destruct (decide (f0 = f)) as [-> | Hne].
  - exfalso. revert Hrun. run_sim. rewrite Hf. discriminate.
  - destruct Hin as [-> | Hin]; [done |]. apply IH; [exact Hin |].
    assert (Hk : keeps_file f (update_csv f0 (organic_logic scenario) ;; mret tt)).
    { apply keeps_file_bind;
        [| intros _; apply keeps_tables_file, keeps_tables_ret].
      apply update_csv_keeps_file; [done | apply organic_logic_keeps]. }
    specialize (Hk s). rewrite Hrun in Hk. cbn [snd] in Hk. by rewrite Hk.
Qed.

(** X22. When one of the four tables of posts exists and has no row, the
    cycle does not run to its end: it raises, whatever the chat model
    answers and whatever the other files hold. *)
Theorem run_simulation_cycle_empty_posts (chat : string -> outcome pystr)
    (now : nat -> string) (scenario f : string) (s : sim) :
  In f organic_files -> tables s !! f = Some (Organic []) ->
  exists e s', run_simulation_cycle chat now scenario s = (Raise e, s').
Proof.
  intros Hin Hf. unfold run_simulation_cycle.
  apply bind_raises. intros [] s1 Hs1.
  assert (H1 : tables s1 !! f = Some (Organic [])).
  { unfold sim_print in Hs1. injection Hs1 as <-. exact Hf. }
  apply bind_raises. intros texts s2 Hs2.
  assert (H2 : tables s2 !! f = Some (Organic [])).
  { destruct (generate_ai_comments_run chat scenario
                (comment_count_of scenario) s1) as (t & out & Hgen & _).
    rewrite Hgen in Hs2. injection Hs2 as _ <-. exact H1. }
  apply bind_raises. intros b s3 Hs3.
  assert (H3 : tables s3 !! f = Some (Organic [])).
  { assert (Hk : keeps_file f (update_csv "synthetic_comments_data.csv"
                                 (comment_logic now texts))).
    { apply update_csv_keeps_file; [| apply comment_logic_keeps].
      intros ->. simpl in Hin.
      repeat destruct Hin as [Hin | Hin]; try discriminate Hin. exact Hin. }
    specialize (Hk s2). rewrite Hs3 in Hk. cbn [snd] in Hk. by rewrite Hk. }
  apply bind_raises. intros [] s4 Hs4.
  destruct (st_for_empty_posts scenario f organic_files s3 Hin H3)
    as (e & s' & Hraise).
  rewrite Hraise in Hs4. discriminate Hs4.
Qed.

Lemma run_simulation_cycle_empty_posts_witness :
  exists e s',
    run_simulation_cycle sample_chat sample_clock "normal"
      sample_sim_empty_posts = (Raise e, s').
Proof.
  apply (run_simulation_cycle_empty_posts sample_chat sample_clock
           "normal" "twitter_organic_posts.csv" sample_sim_empty_posts).
  - simpl. auto.
  - reflexivity.
Defined.

Local Close Scope Z_scope.
